(** * Scoring, error results and compliance reports of a11y-wizard

    Shallow embedding of the scoring and reporting code of the repository:
    - [AccessibilityChecker] (accessibility_checker.py): axe-core result
      processing, the strict web score ("Policy A"), fix suggestions and the
      error result;
    - [AccessibilityScorer.calculate_score] (templates/scoring.py): the
      weighted impact-and-prevalence score ("Policy B");
    - [PDFAccessibilityChecker._calculate_score] and [_error_result]
      (pdf_analyzer.py): the document score ("Policy C");
    - [UniversityComplianceTracker] (compliance_tracker.py): compliance
      status, JSON report and CSV report.

    Python strings are modelled as [string]; one character is one [ascii]
    (the analysed texts are ASCII).  A Python float is represented by its
    exact value in [Q]; [Float64] rounds each float operation to binary64,
    and each place that reads floats as exact rationals says so. *)

From Stdlib Require Import ZArith QArith Qpower Qround Qminmax Lia Lqa List String Ascii Bool.
Import ListNotations.
Open Scope string_scope.
Open Scope nat_scope.

(** ** Python string helpers *)

Module Py.

(** [str.lower] on ASCII characters. *)
Definition lower_char (c : ascii) : ascii :=
  let n := nat_of_ascii c in
  if (65 <=? n) && (n <=? 90) then ascii_of_nat (n + 32) else c.

Fixpoint lower (s : string) : string :=
  match s with
  | EmptyString => EmptyString
  | String c s' => String (lower_char c) (lower s')
  end.

Definition upper_char (c : ascii) : ascii :=
  let n := nat_of_ascii c in
  if (97 <=? n) && (n <=? 122) then ascii_of_nat (n - 32) else c.

Fixpoint upper (s : string) : string :=
  match s with
  | EmptyString => EmptyString
  | String c s' => String (upper_char c) (upper s')
  end.

Definition is_alpha (c : ascii) : bool :=
  let n := nat_of_ascii c in
  ((65 <=? n) && (n <=? 90)) || ((97 <=? n) && (n <=? 122)).

(** [str.title]: a letter is upper-cased when the previous character is not
    a letter, lower-cased otherwise. *)
Fixpoint title_aux (prev_cased : bool) (s : string) : string :=
  match s with
  | EmptyString => EmptyString
  | String c s' =>
      let c' := if is_alpha c then
                  (if prev_cased then lower_char c else upper_char c)
                else c in
      String c' (title_aux (is_alpha c) s')
  end.

Definition title (s : string) : string := title_aux false s.

(** [s.replace("-", " ")]. *)
Fixpoint replace_dash (s : string) : string :=
  match s with
  | EmptyString => EmptyString
  | String c s' =>
      String (if Ascii.eqb c "-"%char then " "%char else c) (replace_dash s')
  end.

(** [s[:n]]. *)
Definition slice (s : string) (n : nat) : string := substring 0 n s.

(** [d.get(key, default)] for an optional field. *)
Definition get {A} (o : option A) (default : A) : A :=
  match o with Some x => x | None => default end.

(** [x in xs] for a list of strings. *)
Definition mem (x : string) (xs : list string) : bool :=
  existsb (String.eqb x) xs.

End Py.

(** ** axe-core results *)

(** One entry of the [violations], [incomplete] or [passes] lists of an
    axe-core run.  Optional fields are the keys read with [.get]; a node is
    kept as its (opaque) serialised form. *)
Record axe_item := mk_axe_item {
  ax_id : option string;
  ax_impact : option string;
  ax_nodes : list string;
  ax_tags : list string;
  ax_description : option string;
  ax_help : option string;
  ax_helpUrl : option string
}.

(** ** Policy A: [AccessibilityChecker._calculate_score] *)

Module PolicyA.
Local Open Scope Z_scope.

(** Penalty of one violation (lines 120-130). *)
Definition penalty (v : axe_item) : Z :=
  let impact := Py.lower (Py.get (ax_impact v) "moderate") in
  if String.eqb impact "critical" then 15
  else if String.eqb impact "serious" then 10
  else if String.eqb impact "moderate" then 7
  else 4.

(** [pass_rate > 0.95] with [pass_rate = len(passes) / total], compared
    exactly: [passes / total > 95 / 100]. *)
Definition high_pass_rate (passes total : Z) : bool :=
  Z.ltb (95 * total) (100 * passes).

Definition calculate_score (violations incomplete passes : list axe_item) : Z :=
  let total := Z.of_nat (List.length violations + List.length incomplete + List.length passes) in
  if Z.eqb total 0 then 100
  else
    let score := fold_left (fun s v => s - penalty v) violations 100 in
    let score := score - Z.of_nat (List.length incomplete) * 3 in
    let score := if high_pass_rate (Z.of_nat (List.length passes)) total
                 then score + 5 else score in
    Z.max 60 (Z.min 100 score).

End PolicyA.

(** ** Policy B: [AccessibilityScorer.calculate_score] (templates/scoring.py)

    This module reads the float arithmetic of the source as exact rational
    arithmetic.  It agrees with the program only where every float operation
    is exact (no violation and no incomplete item, or a saturated pass
    bonus); [PolicyB64] below follows the binary64 arithmetic of the
    program. *)

Module PolicyB.
Local Open Scope Q_scope.

(** [x ** n] for a natural exponent. *)
Fixpoint pow (x : Q) (n : nat) : Q :=
  match n with
  | O => 1
  | S n' => x * pow x n'
  end.

(** [int(x)]: truncation toward zero. *)
Definition py_int (x : Q) : Z := Z.quot (Qnum x) (Zpos (Qden x)).

(** Impact weight of one violation (lines 21-32). *)
Definition weight (v : axe_item) : Q :=
  let impact := Py.lower (Py.get (ax_impact v) "moderate") in
  if String.eqb impact "critical" then 8 # 10
  else if String.eqb impact "serious" then 6 # 10
  else if String.eqb impact "moderate" then 4 # 10
  else 2 # 10.

(** [node_factor = min(1.0, 0.2 + (0.8 * (1 - 0.9 ** nodes_count)))]. *)
Definition node_factor (nodes_count : nat) : Q :=
  Qmin 1 ((2 # 10) + (8 # 10) * (1 - pow (9 # 10) nodes_count)).

Definition deduction (v : axe_item) : Q :=
  10 * weight v * node_factor (List.length (ax_nodes v)).

Definition incomplete_deduction (item : axe_item) : Q :=
  2 * Qmin 1 ((5 # 10) * (1 - pow (95 # 100) (List.length (ax_nodes item)))).

Definition calculate_score (violations incomplete passes : list axe_item) : Z :=
  let total_checks := (List.length violations + List.length incomplete
                       + List.length passes)%nat in
  if Nat.eqb total_checks 0 then 100%Z
  else
    let base_score := fold_left (fun b v => b - deduction v) violations 100 in
    let base_score := fold_left (fun b i => b - incomplete_deduction i)
                                incomplete base_score in
    let pass_bonus := inject_Z (Z.of_nat (List.length passes)) * (5 # 10) in
    let base_score := base_score + Qmin 20 pass_bonus in
    Z.max 0 (Z.min 100 (py_int base_score)).

End PolicyB.

(** ** IEEE 754 binary64 arithmetic

    A Python float is a binary64 number, represented here by its exact value
    in [Q].  Every arithmetic operation rounds its exact result to the nearest
    binary64 number, ties to even.  The exponent range is taken as unbounded
    above (no value computed by the scorer comes near 1e308); below, the
    subnormal spacing 2^-1074 is kept. *)

Module Float64.
Local Open Scope Q_scope.

(** [floor(log2 x)] for [x > 0]. *)
Definition mag (x : Q) : Z :=
  if Qle_bool 1 x then Z.log2 (Qfloor x)
  else (- Z.log2_up (Qceiling (/ x)))%Z.

(** The exponent of the spacing of the binary64 numbers around [x > 0]:
    53-bit significands, subnormal spacing 2^-1074. *)
Definition fexp (x : Q) : Z := Z.max (mag x - 52) (-1074).

(** Rounding of a rational to an integer, to nearest, ties to even. *)
Definition rne (q : Q) : Z :=
  let f := Qfloor q in
  match Qcompare (q - inject_Z f) (1 # 2) with
  | Lt => f
  | Gt => (f + 1)%Z
  | Eq => if Z.even f then f else (f + 1)%Z
  end.

Definition round_pos (x : Q) : Q :=
  inject_Z (rne (x * 2 ^ (- fexp x))) * 2 ^ (fexp x).

(** Rounding to the nearest binary64 number, ties to even. *)
Definition round64 (x : Q) : Q :=
  match Qcompare x 0 with
  | Gt => round_pos x
  | Lt => - round_pos (- x)
  | Eq => 0
  end.

Definition fadd (x y : Q) : Q := round64 (x + y).
Definition fsub (x y : Q) : Q := round64 (x - y).
Definition fmul (x y : Q) : Q := round64 (x * y).

(** [float(n)] for a Python [int]. *)
Definition of_nat (n : nat) : Q := round64 (inject_Z (Z.of_nat n)).

(** Float literals, rounded as Python parses them. *)
Definition lit (q : Q) : Q := round64 q.

End Float64.

(** ** Policy B in binary64 arithmetic

    [x ** n] for a float [x] and an [int] [n] is CPython's [float_pow]: 1.0
    when [n = 0], otherwise the C library's [pow(x, (double)n)], whose last
    bit the C standard leaves to the platform.  The model therefore takes it
    as a parameter [fpow]; [pow_cr] is the correctly rounded one. *)

Module PolicyB64.
Import Float64.
Local Open Scope Q_scope.

Definition c02 : Q := lit (2 # 10).
Definition c04 : Q := lit (4 # 10).
Definition c05 : Q := lit (5 # 10).
Definition c06 : Q := lit (6 # 10).
Definition c08 : Q := lit (8 # 10).
Definition c09 : Q := lit (9 # 10).
Definition c095 : Q := lit (95 # 100).

(** A correctly rounded [x ** n]. *)
Definition pow_cr (x : Q) (n : nat) : Q :=
  match n with
  | O => 1
  | S _ => round64 (PolicyB.pow x n)
  end.

Definition weight (v : axe_item) : Q :=
  let impact := Py.lower (Py.get (ax_impact v) "moderate") in
  if String.eqb impact "critical" then c08
  else if String.eqb impact "serious" then c06
  else if String.eqb impact "moderate" then c04
  else c02.

Section WithPow.
Variable fpow : Q -> nat -> Q.

(** [min(1.0, 0.2 + (0.8 * (1 - 0.9 ** nodes_count)))]. *)
Definition node_factor (nodes_count : nat) : Q :=
  Qmin 1 (fadd c02 (fmul c08 (fsub 1 (fpow c09 nodes_count)))).

(** [10 * weight * node_factor], evaluated left to right. *)
Definition deduction (v : axe_item) : Q :=
  fmul (fmul 10 (weight v)) (node_factor (List.length (ax_nodes v))).

(** [2 * min(1.0, 0.5 * (1 - 0.95 ** len(item.get("nodes", []))))]. *)
Definition incomplete_deduction (item : axe_item) : Q :=
  fmul 2 (Qmin 1 (fmul c05 (fsub 1 (fpow c095 (List.length (ax_nodes item)))))).

Definition calculate_score (violations incomplete passes : list axe_item) : Z :=
  let total_checks := (List.length violations + List.length incomplete
                       + List.length passes)%nat in
  if Nat.eqb total_checks 0 then 100%Z
  else
    let base_score := fold_left (fun b v => fsub b (deduction v)) violations 100 in
    let base_score := fold_left (fun b i => fsub b (incomplete_deduction i))
                                incomplete base_score in
    let pass_bonus := fmul (of_nat (List.length passes)) c05 in
    let base_score := fadd base_score (Qmin 20 pass_bonus) in
    Z.max 0 (Z.min 100 (PolicyB.py_int base_score)).

End WithPow.

End PolicyB64.

(** ** Issues and scan results *)

(** An issue dictionary as built by the checkers; absent keys are [None]. *)
Record issue := mk_issue {
  is_type : option string;
  is_title : option string;
  is_count : option nat;
  is_description : option string;
  is_help : option string;
  is_helpUrl : option string;
  is_impact : option string;
  is_fix : option string;
  is_category : option string;
  is_nodes : option (list string);
  is_tags : option (list string)
}.

(** The dictionary returned by a web or document check.  [sr_target] is the
    ["url"] or ["filename"] key; the counters exist only on axe-core
    results. *)
Record scan_result := mk_scan_result {
  sr_target : string;
  sr_score : Z;
  sr_issues : list issue;
  sr_summary : string;
  sr_method : string;
  sr_violation_count : option nat;
  sr_warning_count : option nat;
  sr_pass_count : option nat
}.

(** Decimal rendering of an integer, as [str(n)] / f-strings do. *)
Fixpoint digits_aux (fuel : nat) (n : N) (acc : string) : string :=
  match fuel with
  | O => acc
  | S fuel' =>
      let d := N.modulo n 10 in
      let acc' := String (ascii_of_N (48 + d)) acc in
      let q := N.div n 10 in
      if N.eqb q 0 then acc' else digits_aux fuel' q acc'
  end.

Definition N_to_string (n : N) : string :=
  digits_aux (S (N.to_nat (N.log2 n))) n EmptyString.

Definition Z_to_string (z : Z) : string :=
  match z with
  | Zneg p => "-" ++ N_to_string (Npos p)
  | _ => N_to_string (Z.to_N z)
  end.

Definition nat_to_string (n : nat) : string := N_to_string (N.of_nat n).

(** ** Policy C: [PDFAccessibilityChecker._calculate_score] *)

Module PolicyC.
Local Open Scope Z_scope.

Definition issue_deduction (i : issue) : Z :=
  match is_type i with
  | Some t => if String.eqb t "critical" then 15
              else if String.eqb t "warning" then 5 else 0
  | None => 0
  end.

Definition calculate_score (issues : list issue) (element_count : nat) : Z :=
  let score := fold_left (fun s i => s - issue_deduction i) issues 100 in
  let score := if (10 <? element_count)%nat then score + 5 else score in
  let score := if score <? 30 then 30 else score in
  let score := if 100 <? score then 100 else score in
  score.

End PolicyC.

(** ** [AccessibilityChecker] helpers and result builders *)

Module Checker.

(** The [fixes] dictionary of [_get_fix_suggestion]. *)
Definition fixes : list (string * string) := [
  ("document-title", "Add a descriptive <title> element in the <head> section.");
  ("image-alt", "Add alt text to images. Use alt='' for decorative images.");
  ("html-has-lang", "Add lang attribute to <html> tag, e.g., <html lang='en'>.");
  ("color-contrast", "Increase color contrast ratio to at least 4.5:1.");
  ("link-name", "Links should have descriptive text content.");
  ("button-name", "Buttons should have accessible names.");
  ("label", "Form inputs should have associated <label> elements.");
  ("aria-hidden-focus", "Don't hide focusable elements from screen readers.")
].

(** [dict.get(key, default)] on a dictionary with distinct keys. *)
Fixpoint dict_get (d : list (string * string)) (key default : string) : string :=
  match d with
  | [] => default
  | (k, v) :: d' => if String.eqb k key then v else dict_get d' key default
  end.

Definition get_fix_suggestion (issue_id : string) : string :=
  dict_get fixes issue_id "Review WCAG guidelines and fix accordingly.".

Definition get_category (tags : list string) : string :=
  if Py.mem "cat.color" tags then "Color"
  else if Py.mem "cat.forms" tags then "Forms"
  else if Py.mem "cat.images" tags then "Images"
  else if Py.mem "cat.language" tags then "Language"
  else if Py.mem "cat.structure" tags then "Structure"
  else "General".

Definition generate_summary (violations incomplete : list axe_item) (score : Z) : string :=
  let '(emoji, text) :=
    if (90 <=? score)%Z then ("✅", "Excellent")
    else if (70 <=? score)%Z then ("⚠️", "Good")
    else if (50 <=? score)%Z then ("🔧", "Needs Work")
    else ("❌", "Poor") in
  emoji ++ " " ++ text ++ " - Score: " ++ Z_to_string score ++ "/100. "
    ++ nat_to_string (List.length violations) ++ " violations, "
    ++ nat_to_string (List.length incomplete) ++ " warnings.".

(** The issue built for one violation (lines 65-77). *)
Definition violation_issue (v : axe_item) : issue := {|
  is_type := Some "critical";
  is_title := Some (Py.title (Py.replace_dash (Py.get (ax_id v) "Violation")));
  is_count := Some (List.length (ax_nodes v));
  is_description := Some (Py.get (ax_description v) "");
  is_help := Some (Py.get (ax_help v) "");
  is_helpUrl := Some (Py.get (ax_helpUrl v) "");
  is_impact := Some (Py.get (ax_impact v) "moderate");
  is_fix := Some (get_fix_suggestion (Py.get (ax_id v) ""));
  is_category := Some (get_category (ax_tags v));
  is_nodes := Some (firstn 2 (ax_nodes v));
  is_tags := None
|}.

(** The issue built for one incomplete item (lines 81-90). *)
Definition incomplete_issue (item : axe_item) : issue := {|
  is_type := Some "warning";
  is_title := Some (Py.title (Py.replace_dash (Py.get (ax_id item) "Review")));
  is_count := Some (List.length (ax_nodes item));
  is_description := Some ("Needs review: " ++ Py.get (ax_description item) "");
  is_help := None;
  is_helpUrl := None;
  is_impact := Some (Py.get (ax_impact item) "moderate");
  is_fix := Some "Manual review required.";
  is_category := Some (get_category (ax_tags item));
  is_nodes := None;
  is_tags := None
|}.

(** [_process_axe_results]; the axe data dictionary is given by its three
    lists (absent keys being the empty list). *)
Definition process_axe_results (url : string)
    (violations incomplete passes : list axe_item) : scan_result :=
  let issues := (map violation_issue violations ++ map incomplete_issue incomplete)%list in
  let score := PolicyA.calculate_score violations incomplete passes in
  {| sr_target := url;
     sr_score := score;
     sr_issues := firstn 20 issues;
     sr_summary := generate_summary violations incomplete score;
     sr_method := "axe-core";
     sr_violation_count := Some (List.length violations);
     sr_warning_count := Some (List.length incomplete);
     sr_pass_count := Some (List.length passes) |}.

(** [AccessibilityChecker._error_result]. *)
Definition error_result (url error : string) : scan_result :=
  {| sr_target := url;
     sr_score := 0;
     sr_issues := [{| is_type := Some "critical";
                      is_title := Some "Analysis Failed";
                      is_count := Some 1;
                      is_description := Some (Py.slice error 100);
                      is_help := None; is_helpUrl := None; is_impact := None;
                      is_fix := Some "Try again with a different URL";
                      is_category := Some "Error";
                      is_nodes := None; is_tags := None |}];
     sr_summary := "Failed: " ++ Py.slice error 50;
     sr_method := "error";
     sr_violation_count := None; sr_warning_count := None; sr_pass_count := None |}.

End Checker.

(** [PDFAccessibilityChecker._error_result] (the second, effective
    definition of the class; the first one is identical). *)
Module PDFChecker.

Definition error_result (filename error : string) : scan_result :=
  {| sr_target := filename;
     sr_score := 0;
     sr_issues := [{| is_type := Some "critical";
                      is_title := Some "Analysis Failed";
                      is_count := Some 1;
                      is_description := Some (Py.slice error 100);
                      is_help := None; is_helpUrl := None; is_impact := None;
                      is_fix := Some "Try a different file or format";
                      is_category := Some "Error";
                      is_nodes := None; is_tags := None |}];
     sr_summary := "Analysis failed: " ++ Py.slice error 50;
     sr_method := "error";
     sr_violation_count := None; sr_warning_count := None; sr_pass_count := None |}.

End PDFChecker.

(** ** [UniversityComplianceTracker] (compliance_tracker.py) *)

Module Tracker.
Local Open Scope Z_scope.

(** *** Calendar and [strftime]

    A point in time is a number of seconds since 1970-01-01 00:00:00 in
    local time (sub-second parts never reach the formats used). *)

(** Proleptic Gregorian date of a day number. *)
Definition civil_from_days (days : Z) : Z * Z * Z :=
  let z := days + 719468 in
  let era := z / 146097 in
  let doe := z - era * 146097 in
  let yoe := (doe - doe / 1460 + doe / 36524 - doe / 146096) / 365 in
  let y := yoe + era * 400 in
  let doy := doe - (365 * yoe + yoe / 4 - yoe / 100) in
  let mp := (5 * doy + 2) / 153 in
  let d := doy - (153 * mp + 2) / 5 + 1 in
  let m := if mp <? 10 then mp + 3 else mp - 9 in
  let y := if m <=? 2 then y + 1 else y in
  (y, m, d).

Definition pad2 (n : Z) : string :=
  if n <? 10 then "0" ++ Z_to_string n else Z_to_string n.

Definition pad4 (n : Z) : string :=
  if n <? 10 then "000" ++ Z_to_string n
  else if n <? 100 then "00" ++ Z_to_string n
  else if n <? 1000 then "0" ++ Z_to_string n
  else Z_to_string n.

Definition day_secs : Z := 86400.

Definition ymd (t : Z) : string * string * string :=
  let '(y, m, d) := civil_from_days (t / day_secs) in (pad4 y, pad2 m, pad2 d).

Definition hms (t : Z) : string * string * string :=
  let s := t mod day_secs in
  (pad2 (s / 3600), pad2 ((s mod 3600) / 60), pad2 (s mod 60)).

(** [strftime("%Y-%m-%d")]. *)
Definition fmt_date (t : Z) : string :=
  let '(y, m, d) := ymd t in y ++ "-" ++ m ++ "-" ++ d.

(** [strftime("%Y%m%d_%H%M%S")]. *)
Definition fmt_stamp (t : Z) : string :=
  let '(y, m, d) := ymd t in let '(hh, mm, ss) := hms t in
  y ++ m ++ d ++ "_" ++ hh ++ mm ++ ss.

(** [strftime("%Y-%m-%d %H:%M:%S")]. *)
Definition fmt_datetime (t : Z) : string :=
  let '(hh, mm, ss) := hms t in
  fmt_date t ++ " " ++ hh ++ ":" ++ mm ++ ":" ++ ss.

(** [timedelta(days=n)]. *)
Definition days (n : Z) : Z := n * day_secs.

(** *** Clock reads

    Every [datetime.now()] reads the clock; the [k]-th read of a run returns
    [clock k].  Code that reads the clock is a state monad over the number of
    reads done so far. *)

Definition M (A : Type) : Type := nat -> A * nat.

Definition ret {A} (a : A) : M A := fun k => (a, k).

Definition bind {A B} (m : M A) (f : A -> M B) : M B :=
  fun k => let '(a, k') := m k in f a k'.

Notation "x <- m ;; f" := (bind m (fun x => f))
  (at level 61, m at next level, right associativity).

Definition now (clock : nat -> Z) : M Z := fun k => (clock k, S k).

Fixpoint mapM {A B} (f : A -> M B) (l : list A) : M (list B) :=
  match l with
  | [] => ret []
  | x :: l' => y <- f x ;; ys <- mapM f l' ;; ret (y :: ys)
  end.

(** *** The report *)

(** The report dictionary written as JSON by [generate_report]. *)
Record report := mk_report {
  r_institution : string;
  r_timestamp : string;
  r_url : string;
  r_department : string;
  r_score : Z;
  r_compliance_status : string;
  r_wcag_level : string;
  r_critical_issues : nat;
  r_total_issues : nat;
  r_detailed_issues : list issue;
  r_auditor : string;
  r_next_audit_date : string;
  r_legal_references : list string
}.

(** [issue.get("type") == t]. *)
Definition type_is (i : issue) (t : string) : bool :=
  match is_type i with Some s => String.eqb s t | None => false end.

Definition get_compliance_status (score : Z) : string :=
  if 95 <=? score then "COMPLIANT - Excellent"
  else if 90 <=? score then "COMPLIANT - Good"
  else if 80 <=? score then "PARTIALLY COMPLIANT - Needs Improvement"
  else if 70 <=? score then "NON-COMPLIANT - Significant Issues"
  else "NON-COMPLIANT - Critical Remediation Required".

Fixpoint determine_wcag_level (issues : list issue) : string :=
  match issues with
  | [] => "WCAG 2.1 AA (Target)"
  | i :: issues' =>
      if Py.mem "wcag2aa" (Py.get (is_tags i) [])
         && type_is i "critical"
      then "WCAG 2.0 A (Minimum)"
      else determine_wcag_level issues'
  end.

Definition is_critical (i : issue) : bool := type_is i "critical".

Definition get_next_audit_date (clock : nat -> Z) : M string :=
  t <- now clock ;; ret (fmt_date (t + days 90)).

(** The due-date cell of one detailed issue (lines 109-115). *)
Definition due_date (clock : nat -> Z) (i : issue) : M string :=
  let severity := Py.get (is_type i) "warning" in
  if String.eqb severity "critical" then ret "IMMEDIATE"
  else if String.eqb severity "warning" then
    t <- now clock ;; ret (fmt_date (t + days 30))
  else
    t <- now clock ;; ret (fmt_date (t + days 60)).

Definition issue_row (clock : nat -> Z) (i : issue) : M (list string) :=
  d <- due_date clock i ;;
  ret [Py.upper (Py.get (is_type i) "");
       Py.get (is_title i) "";
       Py.slice (Py.get (is_description i) "") 100;
       Py.get (is_category i) "General";
       Py.get (is_fix i) "Review required";
       d].

(** The rows written by [_generate_csv_report]; integers are written with
    [str]. *)
Definition generate_csv_report (clock : nat -> Z) (r : report) : M (list (list string)) :=
  t <- now clock ;;
  rows <- mapM (issue_row clock) (r_detailed_issues r) ;;
  ret (app [["University Accessibility Compliance Report"];
        ["Generated:"; fmt_datetime t];
        [];
        ["SUMMARY"];
        ["URL"; r_url r];
        ["Department"; r_department r];
        ["Score"; Z_to_string (r_score r) ++ "/100"];
        ["Compliance Status"; r_compliance_status r];
        ["WCAG Level"; r_wcag_level r];
        ["Critical Issues"; nat_to_string (r_critical_issues r)];
        ["Total Issues"; nat_to_string (r_total_issues r)];
        ["Next Audit Due"; r_next_audit_date r];
        [];
        ["DETAILED ISSUES"];
        ["Type"; "Title"; "Description"; "WCAG Criteria"; "Fix Required"; "Due Date"]]
       rows).

(** What [generate_report] produces: the returned file name, the JSON
    report and the CSV rows. *)
Record output := mk_output {
  o_filename : string;
  o_json : report;
  o_csv : list (list string)
}.

Definition generate_report (clock : nat -> Z) (output_dir url : string)
    (results : scan_result) (department : string) : M output :=
  t <- now clock ;;
  let timestamp := fmt_stamp t in
  let filename := output_dir ++ "/compliance_" ++ timestamp ++ ".json" in
  next <- get_next_audit_date clock ;;
  let issues := sr_issues results in
  let r := {| r_institution := "University Accessibility Audit";
              r_timestamp := timestamp;
              r_url := url;
              r_department := department;
              r_score := sr_score results;
              r_compliance_status := get_compliance_status (sr_score results);
              r_wcag_level := determine_wcag_level issues;
              r_critical_issues := List.length (filter is_critical issues);
              r_total_issues := List.length issues;
              r_detailed_issues := issues;
              r_auditor := "A11y Wizard";
              r_next_audit_date := next;
              r_legal_references := ["ADA Title II"; "Section 508";
                                     "WCAG 2.1 AA"; "OCR Resolution Agreements"] |} in
  csv <- generate_csv_report clock r ;;
  ret {| o_filename := filename; o_json := r; o_csv := csv |}.

End Tracker.

(** ** More Python string helpers *)

Module Py2.

(** [s.startswith(prefix)]. *)
Definition startswith (s prefix : string) : bool := String.prefix prefix s.

(** [pat in s] (substring test). *)
Fixpoint contains (pat s : string) : bool :=
  String.prefix pat s ||
  match s with
  | EmptyString => false
  | String _ s' => contains pat s'
  end.

(** Characters removed by [str.strip()] (the ASCII ones). *)
Definition is_space (c : ascii) : bool :=
  let n := nat_of_ascii c in
  (n =? 32) || ((9 <=? n) && (n <=? 13)) || ((28 <=? n) && (n <=? 31)).

(** [len(s.strip()) > 0]: some character is not white space. *)
Definition strip_nonempty (s : string) : bool :=
  existsb (fun c => negb (is_space c)) (list_ascii_of_string s).

(** [s.split('\n')]. *)
Fixpoint split_nl (s : string) : list string :=
  match s with
  | EmptyString => [EmptyString]
  | String c s' =>
      if Ascii.eqb c "010"%char then EmptyString :: split_nl s'
      else match split_nl s' with
           | [] => [String c EmptyString]
           | l :: ls => String c l :: ls
           end
  end.

Definition newline : string := String "010"%char EmptyString.

(** [os.path.splitext(p)[1]] for POSIX paths: the extension is the text from
    the last dot of the base name, provided a character other than a dot
    precedes that dot in the base name. *)
Fixpoint basename_aux (s acc : string) : string :=
  match s with
  | EmptyString => acc
  | String c s' =>
      if Ascii.eqb c "/"%char then basename_aux s' EmptyString
      else basename_aux s' (acc ++ String c EmptyString)
  end.

Definition basename (p : string) : string := basename_aux p EmptyString.

(** Walking the base name: [seen] tells whether a non-dot character has been
    seen, [ext] is the candidate extension found so far. *)
Fixpoint ext_aux (seen : bool) (s : string) (ext : option string) : option string :=
  match s with
  | EmptyString => ext
  | String c s' =>
      if Ascii.eqb c "."%char then
        ext_aux seen s' (if seen then Some s else ext)
      else ext_aux true s' ext
  end.

Definition splitext_ext (p : string) : string :=
  Py.get (ext_aux false (basename p) None) EmptyString.

End Py2.

(** ** [AccessibilityChecker.check_url] and its fallbacks *)

Module Checker2.

(** The URL normalisation at the start of [check_url]. *)
Definition normalize_url (url : string) : string :=
  if Py2.startswith url "http://" || Py2.startswith url "https://" then url
  else "https://" ++ url.

(** What [_check_with_simple] reads from the HTTP response: the status, the
    [alt] attribute of every [<img>] and the [<html>] tag ([None] when it is
    absent) with its optional [lang] attribute. *)
Record simple_page := mk_simple_page {
  sp_status : Z;
  sp_img_alts : list (option string);
  sp_html_lang : option (option string)
}.

(** [not x] for an optional string attribute. *)
Definition falsy (o : option string) : bool :=
  match o with None => true | Some s => String.eqb s "" end.

Definition images_issue (n : nat) : issue :=
  mk_issue (Some "critical") (Some "Missing Image Alt Text") (Some n)
    (Some "Images without alt text") None None None
    (Some "Add alt='description' to images") (Some "Images") None None.

Definition lang_issue : issue :=
  mk_issue (Some "critical") (Some "Missing Language Attribute") (Some 1)
    (Some "HTML missing lang attribute") None None None
    (Some "Add lang='en' to <html> tag") (Some "Page Structure") None None.

Definition simple_issues (p : simple_page) : list issue :=
  let images_no_alt := filter falsy (sp_img_alts p) in
  let issues := if Nat.eqb (List.length images_no_alt) 0 then []
                else [images_issue (List.length images_no_alt)] in
  let lang_missing := match sp_html_lang p with
                      | None => true
                      | Some lang => falsy lang
                      end in
  if lang_missing then app issues [lang_issue] else issues.

(** [_check_with_simple]; [inl e] is an exception raised while fetching or
    parsing, with message [e]. *)
Definition check_with_simple (url : string) (fetch : string + simple_page) : scan_result :=
  match fetch with
  | inl e => Checker.error_result url ("Simple checker failed: " ++ e)
  | inr p =>
      if Z.eqb (sp_status p) 403 then
        Checker.error_result url "Website blocked access (403 Forbidden)"
      else if negb (Z.eqb (sp_status p) 200) then
        Checker.error_result url ("HTTP " ++ Z_to_string (sp_status p))
      else
        let issues := simple_issues p in
        let score := Z.max 0 (100 - Z.of_nat (List.length issues) * 15) in
        {| sr_target := url; sr_score := score; sr_issues := issues;
           sr_summary := "Simple check found " ++ nat_to_string (List.length issues)
                         ++ " issues";
           sr_method := "simple";
           sr_violation_count := None; sr_warning_count := None;
           sr_pass_count := None |}
  end.

(** The three lists of an axe-core run. *)
Record axe_run := mk_axe_run {
  run_violations : list axe_item;
  run_incomplete : list axe_item;
  run_passes : list axe_item
}.

(** [check_url]: with Playwright available its run is tried first ([inl e]
    when it raises); otherwise, or on failure, the simple checker is used. *)
Definition check_url (playwright_available : bool) (playwright : string + axe_run)
    (fetch : string + simple_page) (url : string) : scan_result :=
  let url := normalize_url url in
  let fallback := check_with_simple url fetch in
  if playwright_available then
    match playwright with
    | inr run => Checker.process_axe_results url (run_violations run)
                   (run_incomplete run) (run_passes run)
    | inl _ => fallback
    end
  else fallback.

End Checker2.

(** ** The [/analyze/url] endpoint (app.py) *)

Module App.

Inductive url_response :=
  | UrlResults (r : scan_result)
  | UrlBlocked.

(** The body returned by [analyze_url] for a scan result. *)
Definition analyze_url_response (results : scan_result) : url_response :=
  if Z.eqb (sr_score results) 0 && Py2.contains "blocked" (Py.lower (sr_summary results))
  then UrlBlocked
  else UrlResults results.

End App.

(** ** [AccessibilityScorer.get_grade] (templates/scoring.py) *)

Module Grade.

Definition get_grade (score : Z) : string * string :=
  if (95 <=? score)%Z then ("A+", "ğŸ† Excellent")
  else if (90 <=? score)%Z then ("A", "âœ… Very Good")
  else if (85 <=? score)%Z then ("A-", "ğŸ‘ Good")
  else if (80 <=? score)%Z then ("B+", "âš ï¸ Above Average")
  else if (75 <=? score)%Z then ("B", "âš ï¸ Average")
  else if (70 <=? score)%Z then ("B-", "âš ï¸ Below Average")
  else if (60 <=? score)%Z then ("C", "ğŸ”§ Needs Work")
  else if (50 <=? score)%Z then ("D", "ğŸš¨ Poor")
  else ("F", "ğŸš¨ Very Poor").

End Grade.

(** ** Document analysis (pdf_analyzer.py) and the [/analyze/pdf] endpoint *)

Module Docs.

(** What [_analyze_pdf] reads from PyPDF2: the [/Title] of the metadata
    ([None] when there is no metadata or no title), the number of outline
    entries and, per page, the result of [extract_text()]. *)
Record pdf_facts := mk_pdf_facts {
  pf_title : option string;
  pf_outline : nat;
  pf_pages : list (option string)
}.

(** The result dictionaries of the document analyses: the common keys and
    the keys proper to each analysis. *)
Inductive doc_output :=
  | PdfOut (base : scan_result) (page_count : nat) (has_text : bool)
  | TextOut (base : scan_result) (line_count : nat) (char_count : nat)
  | ErrOut (base : scan_result).

Definition doc_base (o : doc_output) : scan_result :=
  match o with PdfOut b _ _ | TextOut b _ _ | ErrOut b => b end.

Definition title_issue : issue :=
  mk_issue (Some "critical") (Some "Missing Document Title") (Some 1)
    (Some "PDF missing title in document properties") None None None
    (Some "Add a title in PDF properties (File → Properties)")
    (Some "Document Structure") None None.

Definition bookmarks_issue : issue :=
  mk_issue (Some "warning") (Some "No Document Bookmarks") (Some 1)
    (Some "PDF lacks bookmarks for navigation") None None None
    (Some "Add bookmarks for major sections") (Some "Navigation") None None.

Definition scanned_issue : issue :=
  mk_issue (Some "critical") (Some "Scanned/Image PDF") (Some 1)
    (Some "PDF appears to be scanned images without selectable text") None None None
    (Some "Use OCR to create searchable text") (Some "Text") None None.

Definition page_has_text (t : option string) : bool :=
  match t with Some s => Py2.strip_nonempty s | None => false end.

Definition pdf_issues (f : pdf_facts) : list issue :=
  let i1 := if Checker2.falsy (pf_title f) then [title_issue] else [] in
  let i2 := if Nat.eqb (pf_outline f) 0 then app i1 [bookmarks_issue] else i1 in
  let has_text := existsb page_has_text (firstn 3 (pf_pages f)) in
  if has_text then i2 else app i2 [scanned_issue].

(** [_analyze_pdf]; [inl e] is an exception raised by PyPDF2. *)
Definition analyze_pdf (filename : string) (view : string + pdf_facts) : doc_output :=
  match view with
  | inl e => ErrOut (PDFChecker.error_result filename ("PDF analysis error: " ++ e))
  | inr f =>
      let issues := pdf_issues f in
      let page_count := List.length (pf_pages f) in
      let has_text := existsb page_has_text (firstn 3 (pf_pages f)) in
      let score := PolicyC.calculate_score issues page_count in
      PdfOut {| sr_target := filename; sr_score := score; sr_issues := issues;
                sr_summary := "PDF analysis: " ++ nat_to_string (List.length issues)
                              ++ " issues found across " ++ nat_to_string page_count
                              ++ " pages";
                sr_method := "pdf-analysis";
                sr_violation_count := None; sr_warning_count := None;
                sr_pass_count := None |} page_count has_text
  end.

Definition spacing_issue : issue :=
  mk_issue (Some "warning") (Some "Poor Paragraph Spacing") (Some 1)
    (Some "Text file has excessive blank lines") None None None
    (Some "Use consistent single blank lines between paragraphs")
    (Some "Formatting") None None.

Definition long_lines_issue (n : nat) : issue :=
  mk_issue (Some "warning") (Some "Long Lines") (Some n)
    (Some (nat_to_string n ++ " line(s) exceed 100 characters")) None None None
    (Some "Break long lines for better readability") (Some "Readability") None None.

Definition text_issues (content : string) : list issue :=
  let lines := Py2.split_nl content in
  let i1 := if (1000 <? String.length content)
               && Py2.contains (Py2.newline ++ Py2.newline ++ Py2.newline) content
            then [spacing_issue] else [] in
  let long_lines := filter (fun l => 100 <? String.length l) lines in
  if Nat.eqb (List.length long_lines) 0 then i1
  else app i1 [long_lines_issue (List.length long_lines)].

(** [_analyze_text]; [inl e] is an exception raised while reading. *)
Definition analyze_text (filename : string) (view : string + string) : doc_output :=
  match view with
  | inl e => ErrOut (PDFChecker.error_result filename ("Text analysis error: " ++ e))
  | inr content =>
      let lines := Py2.split_nl content in
      let issues := text_issues content in
      let score := PolicyC.calculate_score issues (List.length lines) in
      TextOut {| sr_target := filename; sr_score := score; sr_issues := issues;
                 sr_summary := "Text file analysis: " ++ nat_to_string (List.length issues)
                               ++ " issues found";
                 sr_method := "text-analysis";
                 sr_violation_count := None; sr_warning_count := None;
                 sr_pass_count := None |} (List.length lines) (String.length content)
  end.

(** The file as each analysis would read it. *)
Record doc_view := mk_doc_view {
  dv_pdf : string + pdf_facts;
  dv_text : string + string
}.

Definition file_ext (filename : string) : string :=
  Py.lower (Py2.splitext_ext filename).

(** [analyze_document]; [inl e] is an exception that escapes it.  The class
    has no [_analyze_word] method: the [def _analyze_word] of the source is
    nested inside [analyze_document] after its [return] statements, so the
    call for a Word file raises [AttributeError]. *)
Definition analyze_document (filename : string) (view : doc_view) : string + doc_output :=
  let ext := file_ext filename in
  if String.eqb ext ".pdf" then inr (analyze_pdf filename (dv_pdf view))
  else if Py.mem ext [".doc"; ".docx"] then
    inl "'PDFAccessibilityChecker' object has no attribute '_analyze_word'"
  else if String.eqb ext ".txt" then inr (analyze_text filename (dv_text view))
  else inr (ErrOut (PDFChecker.error_result filename ("Unsupported file type: " ++ ext))).

(** Bodies of the [/analyze/pdf] responses; an error body also carries
    ["score": 0] and ["issues": []]. *)
Inductive doc_body :=
  | DocResults (o : doc_output)
  | DocErrorBody (error summary : string).

Record doc_response := mk_doc_response {
  dr_status : Z;
  dr_body : doc_body
}.

(** [analyze_pdf] of app.py (writing the upload to a temporary file and
    removing it are left out: they do not change the response). *)
Definition analyze_pdf_endpoint (filename : string) (view : doc_view) : doc_response :=
  let ext := file_ext filename in
  if negb (Py.mem ext [".pdf"; ".doc"; ".docx"; ".txt"]) then
    mk_doc_response 400 (DocErrorBody ("File type " ++ ext ++ " not supported")
                                      ("Unsupported file type: " ++ ext))
  else
    match analyze_document filename view with
    | inr o => mk_doc_response 200 (DocResults o)
    | inl e => mk_doc_response 500 (DocErrorBody ("Failed to analyze document: " ++ e)
                                                 "Document analysis failed")
    end.

End Docs.

(** Sum of [f] over a list. *)
Definition sumZ {A} (f : A -> Z) (l : list A) : Z :=
  fold_right (fun x acc => (f x + acc)%Z) 0%Z l.

(** No character of [s] becomes ['b'] under [str.lower()]. *)
Fixpoint no_b (s : string) : bool :=
  match s with
  | EmptyString => true
  | String c s' => negb (Ascii.eqb (Py.lower_char c) "b"%char) && no_b s'
  end.

(** The letters of [get_grade] from worst to best. *)
Definition grade_rank (letter : string) : nat :=
  if String.eqb letter "A+" then 8
  else if String.eqb letter "A" then 7
  else if String.eqb letter "A-" then 6
  else if String.eqb letter "B+" then 5
  else if String.eqb letter "B" then 4
  else if String.eqb letter "B-" then 3
  else if String.eqb letter "C" then 2
  else if String.eqb letter "D" then 1
  else 0.

(** ** Inputs and shapes used by the properties *)

Definition sample_item (impact : option string) (nodes : nat) : axe_item :=
  mk_axe_item (Some "image-alt") impact (repeat "<img>" nodes) ["cat.images"]
              None None None.

Definition sample_issue (type : string) : issue :=
  mk_issue (Some type) (Some "Missing Document Title") (Some 1%nat)
           (Some "PDF missing title in document properties") None None None
           (Some "Add a title in PDF properties") (Some "Document Structure")
           None None.

(** The shape promised for an error result: score 0 and a single critical
    finding whose description holds at most 100 characters. *)
Definition error_shape (r : scan_result) : Prop :=
  sr_score r = 0%Z /\
  exists f d, sr_issues r = [f] /\ is_type f = Some "critical" /\
              is_description f = Some d /\ (String.length d <= 100)%nat.

Module ReportInputs.
Import Tracker.

(** The due-date cell of an issue when the clock reads [t]. *)
Definition due_cell (i : issue) (t : Z) : string :=
  let severity := Py.get (is_type i) "warning" in
  if String.eqb severity "critical" then "IMMEDIATE"
  else if String.eqb severity "warning" then fmt_date (t + days 30)
  else fmt_date (t + days 60).

(** A clock that reads 23:59:59 on 2026-10-19 first and 00:00:05 on the next
    day afterwards. *)
Definition midnight_clock (k : nat) : Z :=
  match k with O => 1792454399 | _ => 1792454405 end%Z.

Definition warning_result : scan_result :=
  Checker.process_axe_results "https://example.edu" []
    [sample_item (Some "serious") 2] [].

Definition row_due (row : list string) : string := nth 5 row "".

End ReportInputs.

(** * Properties *)

(** ** Helper lemmas *)

Lemma substring_0_length (n : nat) (s : string) :
  (String.length (substring 0 n s) <= n)%nat.
Proof.
  revert n. induction s as [|c s IH]; intros [|n]; simpl; try lia.
  specialize (IH n). lia.
Qed.

(** ** C1: Policy A stays within [60, 100] *)

(** C1: for every non-empty input (at least one violation, incomplete item or
    pass) the Policy A score lies between 60 and 100. *)
Theorem policyA_score_in_60_100 (violations incomplete passes : list axe_item)
  (Hne : (1 <= List.length violations + List.length incomplete + List.length passes)%nat) :
  (60 <= PolicyA.calculate_score violations incomplete passes <= 100)%Z.
Proof.
  unfold PolicyA.calculate_score.
  destruct (Z.eqb_spec (Z.of_nat (List.length violations + List.length incomplete
                                  + List.length passes)) 0); lia.
Qed.

Lemma policyA_score_in_60_100_witness :
  (60 <= PolicyA.calculate_score
           (repeat (sample_item (Some "critical") 1) 10) [] [] <= 100)%Z.
Proof. apply policyA_score_in_60_100. simpl. lia. Defined.

(** ** C3: the worked example of Policy A *)

(** C3: one critical violation, no incomplete item and 19 passes score 85:
    100 - 15, and the pass rate 19/20 = 0.95 does not exceed 0.95. *)
Theorem policyA_one_critical_19_passes (v : axe_item) (passes : list axe_item)
  (Himpact : ax_impact v = Some "critical")
  (Hnodes : List.length (ax_nodes v) = 3%nat)
  (Hpasses : List.length passes = 19%nat) :
  PolicyA.calculate_score [v] [] passes = 85%Z.
Proof.
  unfold PolicyA.calculate_score, PolicyA.penalty. simpl.
  rewrite Himpact, Hpasses. reflexivity.
Qed.

Lemma policyA_one_critical_19_passes_witness :
  PolicyA.calculate_score [sample_item (Some "critical") 3] []
                          (repeat (sample_item None 0) 19) = 85%Z.
Proof.
  apply policyA_one_critical_19_passes; reflexivity.
Defined.

(** ** C4: Policy C *)

(** C4: the document score lies in [30, 100]; one critical finding alone with
    at most 10 elements scores 85; one critical and one warning finding (in
    either order) with at most 10 elements score 80. *)
Theorem policyC_bounds_and_examples :
  (forall issues element_count,
      (30 <= PolicyC.calculate_score issues element_count <= 100)%Z) /\
  (forall c element_count,
      is_type c = Some "critical" -> (element_count <= 10)%nat ->
      PolicyC.calculate_score [c] element_count = 85%Z) /\
  (forall c w element_count,
      is_type c = Some "critical" -> is_type w = Some "warning" ->
      (element_count <= 10)%nat ->
      PolicyC.calculate_score [c; w] element_count = 80%Z /\
      PolicyC.calculate_score [w; c] element_count = 80%Z).
Proof.
  split; [|split].
  - intros issues ec. unfold PolicyC.calculate_score.
    set (s := fold_left _ _ _).
    destruct (10 <? ec)%nat;
      repeat match goal with |- context [if ?b then _ else _] =>
               destruct b eqn:? end;
      rewrite ?Z.ltb_lt, ?Z.ltb_ge in *; lia.
  - intros c ec Hc Hec. unfold PolicyC.calculate_score, PolicyC.issue_deduction.
    simpl. rewrite Hc. apply Nat.ltb_ge in Hec. rewrite Hec. reflexivity.
  - intros c w ec Hc Hw Hec.
    unfold PolicyC.calculate_score, PolicyC.issue_deduction.
    simpl. rewrite Hc, Hw. apply Nat.ltb_ge in Hec. rewrite Hec.
    split; reflexivity.
Qed.

Lemma policyC_bounds_and_examples_witness :
  PolicyC.calculate_score [sample_issue "critical"] 3 = 85%Z /\
  PolicyC.calculate_score [sample_issue "critical"; sample_issue "warning"] 1 = 80%Z.
Proof.
  destruct policyC_bounds_and_examples as [_ [H1 H2]]. split.
  - apply H1; [reflexivity | lia].
  - apply (H2 (sample_issue "critical") (sample_issue "warning") 1%nat);
      [reflexivity | reflexivity | lia].
Defined.

(** ** C5: the error results *)

(** C5: for every failure reason, both error-result constructors (web and
    document) return score 0 and exactly one critical finding whose
    description is cut to at most 100 characters. *)
Theorem error_result_shape (target error : string) :
  error_shape (Checker.error_result target error) /\
  error_shape (PDFChecker.error_result target error).
Proof.
  split; (split; [reflexivity|]);
    eexists; exists (Py.slice error 100);
    (split; [reflexivity|]); (split; [reflexivity|]); (split; [reflexivity|]);
    apply substring_0_length.
Qed.

(** ** C6: compliance status *)

(** C6: the compliance status is the step function of the score with bands
    [95, oo), [90, 95), [80, 90), [70, 80) and (-oo, 70), each closed at its
    lower bound; in particular 90 is "COMPLIANT - Good" and 89 is
    "PARTIALLY COMPLIANT - Needs Improvement". *)
Theorem compliance_status_bands :
  (forall s, (95 <= s)%Z ->
     Tracker.get_compliance_status s = "COMPLIANT - Excellent") /\
  (forall s, (90 <= s < 95)%Z ->
     Tracker.get_compliance_status s = "COMPLIANT - Good") /\
  (forall s, (80 <= s < 90)%Z ->
     Tracker.get_compliance_status s = "PARTIALLY COMPLIANT - Needs Improvement") /\
  (forall s, (70 <= s < 80)%Z ->
     Tracker.get_compliance_status s = "NON-COMPLIANT - Significant Issues") /\
  (forall s, (s < 70)%Z ->
     Tracker.get_compliance_status s = "NON-COMPLIANT - Critical Remediation Required") /\
  Tracker.get_compliance_status 90 = "COMPLIANT - Good" /\
  Tracker.get_compliance_status 89 = "PARTIALLY COMPLIANT - Needs Improvement".
Proof.
  unfold Tracker.get_compliance_status.
  repeat split; intros;
    repeat match goal with |- context [if (?a <=? ?b)%Z then _ else _] =>
             destruct (Z.leb_spec a b) end;
    first [reflexivity | lia].
Qed.

Lemma compliance_status_bands_witness :
  Tracker.get_compliance_status 97 = "COMPLIANT - Excellent" /\
  Tracker.get_compliance_status 92 = "COMPLIANT - Good" /\
  Tracker.get_compliance_status 85 = "PARTIALLY COMPLIANT - Needs Improvement" /\
  Tracker.get_compliance_status 75 = "NON-COMPLIANT - Significant Issues" /\
  Tracker.get_compliance_status 0 = "NON-COMPLIANT - Critical Remediation Required".
Proof.
  destruct compliance_status_bands as [H95 [H90 [H80 [H70 [Hlow _]]]]].
  split; [apply H95; lia|]. split; [apply H90; lia|].
  split; [apply H80; lia|]. split; [apply H70; lia|]. apply Hlow; lia.
Defined.

(** ** C9: fix suggestions *)

(** C9 (as written): an unknown rule id gets "Review accessibility guidelines
    and fix accordingly".  The rule id "region" is unknown and gets another
    text. *)
Lemma fix_suggestion_default_counterexample :
  ~ In "region" (map fst Checker.fixes) /\
  Checker.get_fix_suggestion "region"
    <> "Review accessibility guidelines and fix accordingly".
Proof.
  split.
  - simpl. intros H. repeat (destruct H as [H|H]; [discriminate|]). exact H.
  - vm_compute. discriminate.
Qed.

(** C9 (amended): [_get_fix_suggestion] is the lookup in the static table
    [fixes]: a listed rule id gets its text, and every other rule id gets
    exactly "Review WCAG guidelines and fix accordingly.". *)
Theorem fix_suggestion_lookup :
  (forall rule text, In (rule, text) Checker.fixes ->
     Checker.get_fix_suggestion rule = text) /\
  (forall rule, ~ In rule (map fst Checker.fixes) ->
     Checker.get_fix_suggestion rule = "Review WCAG guidelines and fix accordingly.").
Proof.
  split.
  - intros rule text H. simpl in H.
    repeat (destruct H as [H|H]; [injection H as <- <-; reflexivity|]).
    contradiction.
  - intros rule Hnot. unfold Checker.get_fix_suggestion.
    induction Checker.fixes as [|[k v] d IH]; simpl in *; [reflexivity|].
    destruct (String.eqb_spec k rule) as [->|]; [tauto|].
    apply IH. tauto.
Qed.

Lemma fix_suggestion_lookup_witness :
  Checker.get_fix_suggestion "image-alt"
    = "Add alt text to images. Use alt='' for decorative images." /\
  Checker.get_fix_suggestion "region" = "Review WCAG guidelines and fix accordingly.".
Proof.
  destruct fix_suggestion_lookup as [Hin Hout]. split.
  - apply Hin. simpl. tauto.
  - apply Hout. simpl. intros H. repeat (destruct H as [H|H]; [discriminate|]).
    exact H.
Defined.

(** ** C10: the issue list of an axe-core result *)

(** C10: the issue list of an axe-core result holds at most 20 entries: the
    first 20 of the violation issues followed by the incomplete issues; the
    score and the violation and warning counts are computed on all items. *)
Theorem process_axe_results_issue_cap (url : string)
    (violations incomplete passes : list axe_item) :
  let r := Checker.process_axe_results url violations incomplete passes in
  (List.length (sr_issues r) <= 20)%nat /\
  sr_issues r = firstn 20 (map Checker.violation_issue violations
                           ++ map Checker.incomplete_issue incomplete) /\
  sr_score r = PolicyA.calculate_score violations incomplete passes /\
  sr_violation_count r = Some (List.length violations) /\
  sr_warning_count r = Some (List.length incomplete).
Proof.
  cbv zeta. split; [apply firstn_le_length | repeat split].
Qed.

(** ** C7: impacts outside the four known values *)

(** C7 (as written): a violation with an unknown impact is treated as
    moderate.  With impact "unknown" Policy A deducts 4 (not 7), Policy B
    uses weight 0.2 (not 0.4), and the scores differ from those of the same
    violation with impact "moderate". *)
Lemma unknown_impact_counterexample :
  PolicyA.penalty (sample_item (Some "unknown") 10) = 4%Z /\
  PolicyA.penalty (sample_item (Some "unknown") 10) <> 7%Z /\
  PolicyB.weight (sample_item (Some "unknown") 10) = (2 # 10)%Q /\
  ~ (PolicyB.weight (sample_item (Some "unknown") 10) == 4 # 10)%Q /\
  PolicyA.calculate_score [sample_item (Some "unknown") 10] [] [] = 96%Z /\
  PolicyA.calculate_score [sample_item (Some "moderate") 10] [] [] = 93%Z /\
  PolicyB.calculate_score [sample_item (Some "unknown") 10] [] [] = 98%Z /\
  PolicyB.calculate_score [sample_item (Some "moderate") 10] [] [] = 97%Z.
Proof.
  repeat split; try (vm_compute; reflexivity); vm_compute; discriminate.
Qed.

(** C7 (amended): a violation without an impact key is treated as moderate
    (Policy A deducts 7, Policy B uses weight 0.4); an impact whose
    lower-cased form is none of "critical", "serious", "moderate" falls in the
    final branch and is treated as minor (Policy A deducts 4, Policy B uses
    weight 0.2). *)
Theorem missing_and_unknown_impact (v : axe_item) :
  (ax_impact v = None ->
     PolicyA.penalty v = 7%Z /\ PolicyB.weight v = (4 # 10)%Q) /\
  (forall s, ax_impact v = Some s ->
     Py.lower s <> "critical" -> Py.lower s <> "serious" ->
     Py.lower s <> "moderate" ->
     PolicyA.penalty v = 4%Z /\ PolicyB.weight v = (2 # 10)%Q).
Proof.
  unfold PolicyA.penalty, PolicyB.weight. split.
  - intros ->. split; reflexivity.
  - intros s -> Hc Hs Hm. simpl.
    apply String.eqb_neq in Hc, Hs, Hm. rewrite Hc, Hs, Hm. split; reflexivity.
Qed.

Lemma missing_and_unknown_impact_witness :
  (PolicyA.penalty (sample_item None 2) = 7%Z /\
   PolicyB.weight (sample_item None 2) = (4 # 10)%Q) /\
  (PolicyA.penalty (sample_item (Some "Unknown") 2) = 4%Z /\
   PolicyB.weight (sample_item (Some "Unknown") 2) = (2 # 10)%Q).
Proof.
  split.
  - apply (proj1 (missing_and_unknown_impact (sample_item None 2))). reflexivity.
  - apply (proj2 (missing_and_unknown_impact (sample_item (Some "Unknown") 2)) "Unknown");
      [reflexivity | vm_compute; discriminate | vm_compute; discriminate
      | vm_compute; discriminate].
Defined.

(** ** C2: Policy B is antitone in the node count of a violation *)

Section PolicyBMonotone.
Local Open Scope Q_scope.

Lemma pow_nonneg (x : Q) (n : nat) : 0 <= x -> 0 <= PolicyB.pow x n.
Proof.
  intros Hx. induction n as [|n IH]; simpl.
  - discriminate.
  - apply Qmult_le_0_compat; assumption.
Qed.

Lemma pow_antitone (x : Q) (n m : nat) :
  0 <= x -> x <= 1 -> (n <= m)%nat -> PolicyB.pow x m <= PolicyB.pow x n.
Proof.
  intros H0 H1 Hnm. induction Hnm as [|m Hnm IH]; [apply Qle_refl|].
  simpl. apply Qle_trans with (PolicyB.pow x m); [|exact IH].
  apply Qle_trans with (1 * PolicyB.pow x m).
  - apply Qmult_le_compat_r; [exact H1 | apply pow_nonneg, H0].
  - rewrite Qmult_1_l. apply Qle_refl.
Qed.

(** [max(0, min(100, int(x)))] is monotone: below 0 truncation and flooring
    both give a value the clamp sends to 0, above it they coincide. *)
Lemma clamp_int_floor (x : Q) :
  Z.max 0 (Z.min 100 (PolicyB.py_int x)) = Z.max 0 (Z.min 100 (Qfloor x)).
Proof.
  destruct x as [n d]. unfold PolicyB.py_int, Qfloor. simpl.
  destruct (Z_le_gt_dec 0 n) as [Hn|Hn].
  - rewrite Z.quot_div_nonneg; [reflexivity | exact Hn | lia].
  - assert (Hq : (Z.quot n (Zpos d) <= 0)%Z).
    { rewrite <- (Z.opp_involutive n), Z.quot_opp_l by lia.
      rewrite Z.quot_div_nonneg by lia.
      assert (0 <= - n / Zpos d)%Z by (apply Z.div_pos; lia). lia. }
    assert (Hf : (n / Zpos d < 0)%Z) by (apply Z.div_lt_upper_bound; lia).
    lia.
Qed.

Lemma clamp_int_mono (x y : Q) :
  x <= y ->
  (Z.max 0 (Z.min 100 (PolicyB.py_int x)) <= Z.max 0 (Z.min 100 (PolicyB.py_int y)))%Z.
Proof.
  intros Hxy. rewrite !clamp_int_floor.
  pose proof (Qfloor_resp_le x y Hxy). lia.
Qed.

End PolicyBMonotone.

(** Rounding to binary64 is monotone and leaves binary64 numbers unchanged;
    so are the float operations built on it. *)

Module Float64Facts.
Import Float64.
Local Open Scope Q_scope.

Lemma pow2_pos (k : Z) : 0 < 2 ^ k.
Proof. apply Qpower_0_lt. reflexivity. Qed.

Lemma pow2_add (a b : Z) : 2 ^ (a + b) == 2 ^ a * 2 ^ b.
Proof. apply Qpower_plus. discriminate. Qed.

Lemma pow2_Z (k : Z) : (0 <= k)%Z -> 2 ^ k == inject_Z (2 ^ k)%Z.
Proof. intros Hk. rewrite Zpower_Qpower by exact Hk. reflexivity. Qed.

Lemma pow2_le (a b : Z) : (a <= b)%Z -> 2 ^ a <= 2 ^ b.
Proof. intros H. apply Qpower_le_compat_l; [exact H | lra]. Qed.

Lemma pow2_lt_inv (a b : Z) : 2 ^ a < 2 ^ b -> (a < b)%Z.
Proof. intros H. apply (Qpower_lt_compat_l_inv 2); [exact H | lra]. Qed.

Lemma Qinv_le_contra (a b : Q) : 0 < a -> a <= b -> / b <= / a.
Proof.
  intros Ha Hab. destruct (Qle_lteq a b) as [[Hlt | Heq] _]; [exact Hab | |].
  - apply Qlt_le_weak. apply (proj1 (Qinv_lt_contravar a b Ha ltac:(lra))), Hlt.
  - rewrite Heq. apply Qle_refl.
Qed.

Lemma mag_spec (x : Q) : 0 < x -> 2 ^ mag x <= x /\ x < 2 ^ (mag x + 1).
Proof.
  intros Hx. unfold mag. destruct (Qle_bool 1 x) eqn:E.
  - apply Qle_bool_iff in E.
    assert (Hf : (1 <= Qfloor x)%Z).
    { change 1%Z with (Qfloor 1). apply Qfloor_resp_le. exact E. }
    destruct (Z.log2_spec (Qfloor x)) as [Hl Hu]; [lia|].
    pose proof (Z.log2_nonneg (Qfloor x)) as Hn.
    split.
    + rewrite pow2_Z by exact Hn. apply Qle_trans with (inject_Z (Qfloor x)).
      * rewrite <- Zle_Qle. exact Hl.
      * apply Qfloor_le.
    + rewrite pow2_Z by lia. apply Qlt_le_trans with (inject_Z (Qfloor x + 1)).
      * apply Qlt_floor.
      * rewrite <- Zle_Qle. rewrite <- Z.add_1_r in Hu. lia.
  - assert (Hx1 : x < 1).
    { apply Qnot_le_lt. intros H. apply Qle_bool_iff in H. congruence. }
    assert (Hy : 1 < / x).
    { assert (H := Qinv_lt_contravar x 1 Hx ltac:(lra)). apply H in Hx1.
      exact Hx1. }
    pose proof (Qle_ceiling (/ x)) as Hc.
    assert (Hc1 : (1 < Qceiling (/ x))%Z).
    { rewrite Zlt_Qlt. change (inject_Z 1) with 1. lra. }
    destruct (Z.log2_up_spec (Qceiling (/ x))) as [Hl Hu]; [exact Hc1|].
    pose proof (Z.log2_up_pos _ Hc1) as Hp.
    set (u := Z.log2_up (Qceiling (/ x))) in *.
    split.
    + rewrite Qpower_opp. rewrite <- (Qinv_involutive x).
      apply Qinv_le_contra; [apply Qinv_lt_0_compat, Hx |].
      rewrite pow2_Z by lia. apply Qle_trans with (inject_Z (Qceiling (/ x))).
      * exact Hc.
      * rewrite <- Zle_Qle. exact Hu.
    + replace (- u + 1)%Z with (- Z.pred u)%Z by lia.
      rewrite Qpower_opp. rewrite <- (Qinv_involutive x).
      apply (proj1 (Qinv_lt_contravar _ _ (pow2_pos _) (Qinv_lt_0_compat _ Hx))).
      rewrite pow2_Z by lia.
      apply Qle_lt_trans with (inject_Z (Qceiling (/ x) - 1)).
      * rewrite <- Zle_Qle. lia.
      * apply Qceiling_lt.
Qed.

Lemma mag_mono (x y : Q) : 0 < x -> x <= y -> (mag x <= mag y)%Z.
Proof.
  intros Hx Hxy. destruct (mag_spec x Hx) as [Hx1 _].
  destruct (mag_spec y ltac:(lra)) as [_ Hy2].
  assert (H : (mag x < mag y + 1)%Z).
  { apply pow2_lt_inv. apply Qle_lt_trans with x; [exact Hx1|].
    apply Qle_lt_trans with y; assumption. }
  lia.
Qed.

Lemma rne_bounds (q : Q) : (Qfloor q <= rne q <= Qfloor q + 1)%Z.
Proof.
  unfold rne. destruct (_ ?= _); [destruct (Z.even _)|..]; lia.
Qed.

Lemma rne_mono (q q' : Q) : q <= q' -> (rne q <= rne q')%Z.
Proof.
  intros H. pose proof (Qfloor_resp_le q q' H) as Hf.
  destruct (Z.eq_dec (Qfloor q) (Qfloor q')) as [E|E].
  - unfold rne. rewrite <- E.
    destruct (Qcompare_spec (q - inject_Z (Qfloor q)) (1 # 2)) as [H1|H1|H1];
    destruct (Qcompare_spec (q' - inject_Z (Qfloor q)) (1 # 2)) as [H2|H2|H2];
    try (destruct (Z.even (Qfloor q))); try lia; lra.
  - pose proof (rne_bounds q). pose proof (rne_bounds q'). lia.
Qed.

Lemma rne_Z (z : Z) : rne (inject_Z z) = z.
Proof.
  unfold rne. rewrite Qfloor_Z.
  destruct (Qcompare_spec (inject_Z z - inject_Z z) (1 # 2)); [lra | reflexivity | lra].
Qed.

Lemma rne_nonneg (q : Q) : 0 <= q -> (0 <= rne q)%Z.
Proof.
  intros H. rewrite <- (rne_Z 0). apply rne_mono. exact H.
Qed.

Lemma fexp_mono (x y : Q) : 0 < x -> x <= y -> (fexp x <= fexp y)%Z.
Proof.
  intros Hx Hxy. pose proof (mag_mono x y Hx Hxy). unfold fexp. lia.
Qed.

Lemma round_pos_nonneg (x : Q) : 0 <= x -> 0 <= round_pos x.
Proof.
  intros H. unfold round_pos. apply Qmult_le_0_compat.
  - change 0 with (inject_Z 0). rewrite <- Zle_Qle. apply rne_nonneg.
    apply Qmult_le_0_compat; [exact H | apply Qlt_le_weak, pow2_pos].
  - apply Qlt_le_weak, pow2_pos.
Qed.

Lemma round_pos_le_pow (x : Q) (k : Z) :
  x <= 2 ^ k -> (fexp x <= k)%Z -> round_pos x <= 2 ^ k.
Proof.
  intros Hx Hk. unfold round_pos. set (e := fexp x) in *.
  assert (H1 : x * 2 ^ (- e) <= inject_Z (2 ^ (k - e))%Z).
  { rewrite <- pow2_Z by lia. change (k - e)%Z with (k + - e)%Z. rewrite pow2_add.
    apply Qmult_le_compat_r; [exact Hx | apply Qlt_le_weak, pow2_pos]. }
  apply rne_mono in H1. rewrite rne_Z in H1.
  apply Qle_trans with (inject_Z (2 ^ (k - e))%Z * 2 ^ e).
  - apply Qmult_le_compat_r; [rewrite <- Zle_Qle; exact H1 | apply Qlt_le_weak, pow2_pos].
  - rewrite <- pow2_Z by lia. rewrite <- pow2_add.
    replace (k - e + e)%Z with k by lia. apply Qle_refl.
Qed.

Lemma round_pos_ge_pow (x : Q) (k : Z) :
  2 ^ k <= x -> (fexp x <= k)%Z -> 2 ^ k <= round_pos x.
Proof.
  intros Hx Hk. unfold round_pos. set (e := fexp x) in *.
  assert (H1 : inject_Z (2 ^ (k - e))%Z <= x * 2 ^ (- e)).
  { rewrite <- pow2_Z by lia. change (k - e)%Z with (k + - e)%Z. rewrite pow2_add.
    apply Qmult_le_compat_r; [exact Hx | apply Qlt_le_weak, pow2_pos]. }
  apply rne_mono in H1. rewrite rne_Z in H1.
  apply Qle_trans with (inject_Z (2 ^ (k - e))%Z * 2 ^ e).
  - rewrite <- pow2_Z by lia. rewrite <- pow2_add.
    replace (k - e + e)%Z with k by lia. apply Qle_refl.
  - apply Qmult_le_compat_r; [rewrite <- Zle_Qle; exact H1 | apply Qlt_le_weak, pow2_pos].
Qed.

Lemma round_pos_mono (x y : Q) : 0 < x -> x <= y -> round_pos x <= round_pos y.
Proof.
  intros Hx Hxy. pose proof (fexp_mono x y Hx Hxy) as He.
  destruct (Z.eq_dec (fexp x) (fexp y)) as [E|E].
  - unfold round_pos. rewrite E.
    apply Qmult_le_compat_r; [|apply Qlt_le_weak, pow2_pos].
    rewrite <- Zle_Qle. apply rne_mono.
    apply Qmult_le_compat_r; [exact Hxy | apply Qlt_le_weak, pow2_pos].
  - pose proof (mag_mono x y Hx Hxy) as Hm.
    destruct (mag_spec x Hx) as [_ Hx2].
    destruct (mag_spec y ltac:(lra)) as [Hy1 _].
    assert (Hm' : (mag x + 1 <= mag y)%Z) by (unfold fexp in *; lia).
    apply Qle_trans with (2 ^ mag y).
    + apply round_pos_le_pow; [|unfold fexp in *; lia].
      apply Qle_trans with (2 ^ (mag x + 1)); [lra | apply pow2_le, Hm'].
    + apply round_pos_ge_pow; [exact Hy1 | unfold fexp in *; lia].
Qed.

Lemma round64_mono (x y : Q) : x <= y -> round64 x <= round64 y.
Proof.
  intros Hxy. unfold round64.
  destruct (Qcompare_spec x 0) as [Hx|Hx|Hx];
  destruct (Qcompare_spec y 0) as [Hy|Hy|Hy]; try lra;
  try (pose proof (round_pos_nonneg y ltac:(lra)));
  try (pose proof (round_pos_nonneg (- x) ltac:(lra))); try lra.
  - pose proof (round_pos_mono (- y) (- x) ltac:(lra) ltac:(lra)). lra.
  - apply round_pos_mono; assumption.
Qed.

Lemma rne_comp (q q' : Q) : q == q' -> rne q = rne q'.
Proof.
  intros H. pose proof (rne_mono q q' ltac:(lra)). pose proof (rne_mono q' q ltac:(lra)). lia.
Qed.

Lemma round_pos_comp (x y : Q) : 0 < x -> x == y -> round_pos x == round_pos y.
Proof.
  intros Hx H. apply Qle_antisym; apply round_pos_mono; lra.
Qed.

Lemma round_pos_zero (x : Q) : x == 0 -> round_pos x == 0.
Proof.
  intros H. unfold round_pos.
  rewrite (rne_comp _ (inject_Z 0)), rne_Z; [reflexivity|].
  apply Qeq_trans with (0 * 2 ^ (- fexp x)); [apply Qmult_comp; [exact H | reflexivity]|].
  reflexivity.
Qed.

(** A positive multiple of [2 ^ k], with [k] at least the spacing exponent,
    is left unchanged by rounding. *)
Lemma round_pos_repr (y : Q) (m k : Z) :
  y == inject_Z m * 2 ^ k -> (fexp y <= k)%Z -> round_pos y == y.
Proof.
  intros Hy Hk. unfold round_pos. set (e := fexp y) in *.
  rewrite (rne_comp _ (inject_Z (m * 2 ^ (k - e)))).
  - rewrite rne_Z, inject_Z_mult, <- pow2_Z by lia.
    rewrite Hy, <- Qmult_assoc, <- pow2_add. replace (k - e + e)%Z with k by lia.
    reflexivity.
  - rewrite inject_Z_mult, <- pow2_Z by lia. rewrite Hy, <- Qmult_assoc, <- pow2_add.
    reflexivity.
Qed.

Lemma round_pos_idem (x : Q) : 0 < x -> round_pos (round_pos x) == round_pos x.
Proof.
  intros Hx. set (y := round_pos x).
  destruct (Qcompare_spec y 0) as [Hy|Hy|Hy].
  - rewrite (round_pos_zero y Hy). symmetry. exact Hy.
  - pose proof (round_pos_nonneg x ltac:(lra)). fold y in H. lra.
  - set (e := fexp x).
    assert (Hye : y == inject_Z (rne (x * 2 ^ (- e))) * 2 ^ e) by reflexivity.
    destruct (Z_le_gt_dec (fexp y) e) as [Hle|Hgt].
    + exact (round_pos_repr y _ e Hye Hle).
    + destruct (mag_spec x Hx) as [_ Hx2].
      destruct (mag_spec y Hy) as [Hy1 _].
      set (k0 := Z.max (mag x + 1) e).
      assert (Hyk : y <= 2 ^ k0).
      { apply round_pos_le_pow; [|unfold k0; lia].
        apply Qle_trans with (2 ^ (mag x + 1)); [lra | apply pow2_le; unfold k0; lia]. }
      assert (Hmk : (mag y <= k0)%Z) by (apply (Qpower_le_compat_l_inv 2); lra).
      assert (Hmx : (mag x + 1 = mag y)%Z) by (unfold k0, e in *; unfold fexp in *; lia).
      assert (Heq : y == inject_Z 1 * 2 ^ mag y).
      { rewrite Qmult_1_l. apply Qle_antisym; [|exact Hy1].
        apply Qle_trans with (2 ^ k0); [exact Hyk|]. apply pow2_le. unfold k0, e in *; unfold fexp in *; lia. }
      apply (round_pos_repr y 1 (mag y) Heq). unfold fexp in *; lia.
Qed.

Lemma round64_0 : round64 0 = 0.
Proof. reflexivity. Qed.

Lemma round64_nonneg (x : Q) : 0 <= x -> 0 <= round64 x.
Proof. intros H. rewrite <- round64_0. apply round64_mono, H. Qed.

Lemma round64_idem (x : Q) : round64 (round64 x) == round64 x.
Proof.
  remember (round64 x) as r eqn:Er. unfold round64 in Er.
  destruct (Qcompare_spec x 0) as [Hx|Hx|Hx]; subst r.
  - reflexivity.
  - pose proof (round_pos_nonneg (- x) ltac:(lra)) as H0.
    unfold round64. destruct (Qcompare_spec (- round_pos (- x)) 0) as [H|H|H]; try lra.
    rewrite (round_pos_comp (- - round_pos (- x)) (round_pos (- x))) by lra.
    rewrite round_pos_idem by lra. reflexivity.
  - pose proof (round_pos_nonneg x ltac:(lra)) as H0.
    unfold round64. destruct (Qcompare_spec (round_pos x) 0) as [H|H|H]; try lra.
    apply round_pos_idem, Hx.
Qed.

Lemma fsub_mono (a a' d d' : Q) : a <= a' -> d' <= d -> fsub a d <= fsub a' d'.
Proof. intros Ha Hd. apply round64_mono. lra. Qed.

Lemma fadd_mono (a a' b b' : Q) : a <= a' -> b <= b' -> fadd a b <= fadd a' b'.
Proof. intros Ha Hb. apply round64_mono. lra. Qed.

Lemma fmul_mono_r (c a b : Q) : 0 <= c -> a <= b -> fmul c a <= fmul c b.
Proof.
  intros Hc Hab. apply round64_mono. rewrite !(Qmult_comm c).
  apply Qmult_le_compat_r; assumption.
Qed.

Lemma fmul_mono_l (c a b : Q) : 0 <= c -> a <= b -> fmul a c <= fmul b c.
Proof. intros Hc Hab. apply round64_mono. apply Qmult_le_compat_r; assumption. Qed.

Lemma fmul_nonneg (a b : Q) : 0 <= a -> 0 <= b -> 0 <= fmul a b.
Proof. intros Ha Hb. apply round64_nonneg, Qmult_le_0_compat; assumption. Qed.

(** Subtracting a nonnegative amount from a binary64 number never gives more. *)
Lemma fsub_le (b d : Q) : round64 b == b -> 0 <= d -> fsub b d <= b.
Proof.
  intros Hb Hd. unfold fsub. rewrite <- Hb at 2. apply round64_mono. lra.
Qed.

Lemma fold_fsub_mono {A} (f : A -> Q) (l : list A) (b b' : Q) :
  b <= b' ->
  fold_left (fun s x => fsub s (f x)) l b <= fold_left (fun s x => fsub s (f x)) l b'.
Proof.
  revert b b'. induction l as [|x l IH]; intros b b' Hb; simpl; [exact Hb|].
  apply IH. apply fsub_mono; [exact Hb | apply Qle_refl].
Qed.

Lemma fold_fsub_double {A} (f : A -> Q) (l : list A) (b : Q) :
  round64 b == b ->
  round64 (fold_left (fun s x => fsub s (f x)) l b)
  == fold_left (fun s x => fsub s (f x)) l b.
Proof.
  revert b. induction l as [|x l IH]; intros b Hb; simpl; [exact Hb|].
  apply IH. apply round64_idem.
Qed.

Lemma fold_fsub_insert {A} (f : A -> Q) (pre post : list A) (x : A) (b : Q) :
  round64 b == b -> 0 <= f x ->
  fold_left (fun s y => fsub s (f y)) (pre ++ x :: post) b
  <= fold_left (fun s y => fsub s (f y)) (pre ++ post) b.
Proof.
  intros Hb Hx. rewrite !fold_left_app. cbn [fold_left].
  apply fold_fsub_mono, fsub_le; [apply fold_fsub_double, Hb | exact Hx].
Qed.

End Float64Facts.

Module PolicyB64Facts.
Import Float64 Float64Facts PolicyB64.
Local Open Scope Q_scope.

Lemma c02_nonneg : 0 <= c02. Proof. apply Qle_bool_imp_le. vm_compute. reflexivity. Qed.
Lemma c04_nonneg : 0 <= c04. Proof. apply Qle_bool_imp_le. vm_compute. reflexivity. Qed.
Lemma c05_nonneg : 0 <= c05. Proof. apply Qle_bool_imp_le. vm_compute. reflexivity. Qed.
Lemma c06_nonneg : 0 <= c06. Proof. apply Qle_bool_imp_le. vm_compute. reflexivity. Qed.
Lemma c08_nonneg : 0 <= c08. Proof. apply Qle_bool_imp_le. vm_compute. reflexivity. Qed.
Lemma c09_nonneg : 0 <= c09. Proof. apply Qle_bool_imp_le. vm_compute. reflexivity. Qed.
Lemma c09_le_1 : c09 <= 1. Proof. apply Qle_bool_imp_le. vm_compute. reflexivity. Qed.
Lemma round64_1 : round64 1 == 1. Proof. apply Qeq_bool_iff. vm_compute. reflexivity. Qed.
Lemma round64_100 : round64 100 == 100. Proof. apply Qeq_bool_iff. vm_compute. reflexivity. Qed.

Lemma weight_nonneg64 (v : axe_item) : 0 <= weight v.
Proof.
  unfold weight.
  destruct (String.eqb _ "critical"); [apply c08_nonneg|].
  destruct (String.eqb _ "serious"); [apply c06_nonneg|].
  destruct (String.eqb _ "moderate"); [apply c04_nonneg | apply c02_nonneg].
Qed.

Section WithPowFacts.
Variable fpow : Q -> nat -> Q.

Lemma node_factor_mono64 (n m : nat) :
  fpow c09 m <= fpow c09 n -> node_factor fpow n <= node_factor fpow m.
Proof.
  intros Hp. unfold node_factor. apply Q.min_le_compat_l.
  apply fadd_mono; [apply Qle_refl|]. apply fmul_mono_r; [apply c08_nonneg|].
  apply fsub_mono; [apply Qle_refl | exact Hp].
Qed.

Lemma node_factor_nonneg64 (n : nat) : fpow c09 n <= 1 -> 0 <= node_factor fpow n.
Proof.
  intros Hp. unfold node_factor. apply Q.min_glb; [discriminate|].
  apply round64_nonneg. apply Qle_trans with (c02 + 0); [pose proof c02_nonneg; lra|].
  apply Qplus_le_compat; [apply Qle_refl|].
  apply fmul_nonneg; [apply c08_nonneg|]. apply round64_nonneg. lra.
Qed.

Lemma deduction_mono64 (v1 v2 : axe_item) :
  ax_impact v1 = ax_impact v2 ->
  fpow c09 (List.length (ax_nodes v2)) <= fpow c09 (List.length (ax_nodes v1)) ->
  deduction fpow v1 <= deduction fpow v2.
Proof.
  intros Himp Hp. unfold deduction.
  assert (Hw : weight v1 = weight v2) by (unfold weight; rewrite Himp; reflexivity).
  rewrite Hw. apply fmul_mono_r; [|apply node_factor_mono64, Hp].
  apply fmul_nonneg; [discriminate | apply weight_nonneg64].
Qed.

Lemma deduction_nonneg64 (v : axe_item) :
  fpow c09 (List.length (ax_nodes v)) <= 1 -> 0 <= deduction fpow v.
Proof.
  intros Hp. unfold deduction. apply fmul_nonneg; [|apply node_factor_nonneg64, Hp].
  apply fmul_nonneg; [discriminate | apply weight_nonneg64].
Qed.

Lemma incomplete_deduction_nonneg64 (i : axe_item) :
  fpow c095 (List.length (ax_nodes i)) <= 1 -> 0 <= incomplete_deduction fpow i.
Proof.
  intros Hp. unfold incomplete_deduction. apply fmul_nonneg; [discriminate|].
  apply Q.min_glb; [discriminate|].
  apply fmul_nonneg; [apply c05_nonneg|]. apply round64_nonneg. lra.
Qed.

End WithPowFacts.

Lemma clamp_int_100 (q : Q) : 100 <= q -> Z.max 0 (Z.min 100 (PolicyB.py_int q)) = 100%Z.
Proof.
  intros H. rewrite clamp_int_floor.
  apply Qfloor_resp_le in H. change (Qfloor 100) with 100%Z in H. lia.
Qed.

(** The correctly rounded [0.9 ** n] decreases with [n]. *)
Lemma pow_cr_antitone (n m : nat) : (n <= m)%nat -> pow_cr c09 m <= pow_cr c09 n.
Proof.
  intros Hnm. destruct m as [|m]; [assert (n = 0%nat) as -> by lia; apply Qle_refl|].
  destruct n as [|n]; simpl pow_cr.
  - rewrite <- round64_1. apply round64_mono.
    apply (pow_antitone c09 0 (S m) c09_nonneg c09_le_1). lia.
  - apply round64_mono. apply (pow_antitone c09 (S n) (S m)); [apply c09_nonneg | apply c09_le_1 | exact Hnm].
Qed.

End PolicyB64Facts.

Import Float64Facts PolicyB64Facts.

(** C2: if two inputs differ only in one violation entry, with the same
    impact and strictly more affected nodes in the second, Policy B scores the
    second no higher than the first.  The score is computed in binary64
    arithmetic; [x ** n] is the platform's [pow], assumed to give [0.9 ** n]
    no larger for the higher node count than for the lower one (the correctly
    rounded [pow_cr] does so for all counts, [pow_cr_antitone]). *)
Theorem policyB_more_nodes_no_better_score (fpow : Q -> nat -> Q)
    (pre post incomplete passes : list axe_item) (v1 v2 : axe_item)
    (Himpact : ax_impact v1 = ax_impact v2)
    (Hmore : (List.length (ax_nodes v1) < List.length (ax_nodes v2))%nat)
    (Hpow : (fpow PolicyB64.c09 (List.length (ax_nodes v2))
             <= fpow PolicyB64.c09 (List.length (ax_nodes v1)))%Q) :
  (PolicyB64.calculate_score fpow (pre ++ v2 :: post) incomplete passes
   <= PolicyB64.calculate_score fpow (pre ++ v1 :: post) incomplete passes)%Z.
Proof.
  unfold PolicyB64.calculate_score.
  rewrite !length_app. cbn [List.length].
  destruct (Nat.eqb _ 0); [lia|].
  apply clamp_int_mono.
  apply fadd_mono; [|apply Qle_refl].
  apply fold_fsub_mono.
  rewrite !fold_left_app. cbn [fold_left].
  apply fold_fsub_mono.
  apply fsub_mono; [apply Qle_refl|].
  apply deduction_mono64; assumption.
Qed.

Lemma policyB_more_nodes_no_better_score_witness :
  (PolicyB64.calculate_score PolicyB64.pow_cr [sample_item (Some "serious") 3] [] []
   <= PolicyB64.calculate_score PolicyB64.pow_cr [sample_item (Some "serious") 1] [] [])%Z.
Proof.
  apply (policyB_more_nodes_no_better_score PolicyB64.pow_cr [] [] [] []);
    [reflexivity | simpl; lia | apply Qle_bool_imp_le; vm_compute; reflexivity].
Defined.

(** ** C8: the JSON and CSV outputs of one report *)

Module TrackerFacts.
Import Tracker ReportInputs.

Lemma due_date_reads (clock : nat -> Z) (i : issue) (k : nat) :
  fst (due_date clock i k) = due_cell i (clock k) /\
  (k <= snd (due_date clock i k))%nat.
Proof.
  unfold due_date, due_cell.
  destruct (String.eqb _ "critical"); [|destruct (String.eqb _ "warning")];
    simpl; repeat split; lia.
Qed.

Lemma mapM_cons {A B} (f : A -> M B) (x : A) (l : list A) (k : nat) :
  mapM f (x :: l) k =
  (fst (f x k) :: fst (mapM f l (snd (f x k))), snd (mapM f l (snd (f x k)))).
Proof.
  simpl. unfold bind, ret.
  destruct (f x k) as [y k1]. simpl.
  destruct (mapM f l k1) as [ys k2]. reflexivity.
Qed.

Lemma issue_row_reads (clock : nat -> Z) (i : issue) (k : nat) :
  row_due (fst (issue_row clock i k)) = due_cell i (clock k) /\
  (k <= snd (issue_row clock i k))%nat.
Proof.
  destruct (due_date_reads clock i k) as [Hd Hk].
  unfold issue_row, bind, ret.
  destruct (due_date clock i k) as [d k1]. simpl in *. split; [exact Hd | exact Hk].
Qed.

Lemma issue_rows_due (clock : nat -> Z) (l : list issue) (k : nat) :
  Forall2 (fun i row => exists k', (k <= k')%nat /\ row_due row = due_cell i (clock k'))
          l (fst (mapM (issue_row clock) l k)) /\
  (k <= snd (mapM (issue_row clock) l k))%nat.
Proof.
  revert k. induction l as [|i l IH]; intros k.
  - simpl. split; [constructor | lia].
  - rewrite mapM_cons. simpl fst. simpl snd.
    destruct (issue_row_reads clock i k) as [Hd Hk].
    destruct (IH (snd (issue_row clock i k))) as [IHf IHk].
    split; [|lia].
    constructor.
    + exists k. split; [lia | exact Hd].
    + eapply Forall2_impl; [|exact IHf].
      intros i' row [k'' [Hk'' Hrow]]. exists k''. split; [lia | exact Hrow].
Qed.

End TrackerFacts.

(** C8 (as written): the JSON and CSV outputs agree on per-finding due
    dates computed from one generation-time reference.  With a report
    generated at 23:59:59 and its CSV rows written a few seconds later, on the
    next day, the warning's CSV due date is 2026-11-19, not the 2026-11-18
    that 30 days after the generation time gives; the JSON report carries no
    due date at all. *)
Lemma report_due_date_counterexample :
  let out := fst (Tracker.generate_report ReportInputs.midnight_clock
                    "compliance_reports" "https://example.edu"
                    ReportInputs.warning_result "" 0) in
  Tracker.r_timestamp (Tracker.o_json out) = "20261019_235959" /\
  ReportInputs.row_due (nth 15 (Tracker.o_csv out) []) = "2026-11-19" /\
  Tracker.fmt_date (ReportInputs.midnight_clock 0 + Tracker.days 30)%Z = "2026-11-18" /\
  ReportInputs.row_due (nth 15 (Tracker.o_csv out) [])
    <> Tracker.fmt_date (ReportInputs.midnight_clock 0 + Tracker.days 30)%Z.
Proof.
  vm_compute. repeat split; discriminate.
Qed.

(** C8 (amended): the CSV written for a report shows the JSON report's score
    (as "score/100") and its compliance status, which is the status of that
    score.  The JSON report holds no due dates; each CSV detail row's due
    date comes from a clock read made while that row is written (the fourth
    read of the run or a later one), not from the report's generation time:
    "IMMEDIATE" for a critical issue, 30 days after that read for a warning
    or an issue without type, 60 days after it otherwise. *)
Theorem report_outputs_agree (clock : nat -> Z)
    (output_dir url department : string) (results : scan_result) :
  let out := fst (Tracker.generate_report clock output_dir url results department 0) in
  Tracker.r_score (Tracker.o_json out) = sr_score results /\
  Tracker.r_compliance_status (Tracker.o_json out)
    = Tracker.get_compliance_status (Tracker.r_score (Tracker.o_json out)) /\
  nth 6 (Tracker.o_csv out) []
    = ["Score"; Z_to_string (Tracker.r_score (Tracker.o_json out)) ++ "/100"] /\
  nth 7 (Tracker.o_csv out) []
    = ["Compliance Status"; Tracker.r_compliance_status (Tracker.o_json out)] /\
  Forall2 (fun i row => exists k, (3 <= k)%nat /\
             ReportInputs.row_due row = ReportInputs.due_cell i (clock k))
          (Tracker.r_detailed_issues (Tracker.o_json out))
          (skipn 15 (Tracker.o_csv out)).
Proof.
  cbv zeta. cbv [Tracker.generate_report Tracker.bind Tracker.now Tracker.ret
                 Tracker.get_next_audit_date Tracker.generate_csv_report].
  destruct (TrackerFacts.issue_rows_due clock (sr_issues results) 3) as [Hrows _].
  destruct (Tracker.mapM _ (sr_issues results) 3) as [rows k] eqn:Er.
  simpl. rewrite Er. simpl. repeat split. exact Hrows.
Qed.

(** * Further properties of the code *)

(** ** Policies A, B and C when the input grows *)

Section ScoreGrowth.

Lemma fold_sub_sumZ {A} (f : A -> Z) (l : list A) (b : Z) :
  fold_left (fun s x => (s - f x)%Z) l b = (b - sumZ f l)%Z.
Proof.
  revert b. induction l as [|x l IH]; intros b; simpl; [lia|].
  rewrite IH. lia.
Qed.

Lemma sumZ_app {A} (f : A -> Z) (l1 l2 : list A) :
  sumZ f (l1 ++ l2) = (sumZ f l1 + sumZ f l2)%Z.
Proof. induction l1 as [|x l1 IH]; simpl; [reflexivity|]. rewrite IH. lia. Qed.

Lemma penalty_range (v : axe_item) : (4 <= PolicyA.penalty v <= 15)%Z.
Proof.
  unfold PolicyA.penalty.
  destruct (String.eqb _ "critical"); [lia|].
  destruct (String.eqb _ "serious"); [lia|].
  destruct (String.eqb _ "moderate"); lia.
Qed.

End ScoreGrowth.

(** X1: with Policy A, inserting one more violation anywhere in the list of
    violations never raises the score. *)
Theorem policyA_extra_violation_no_better (pre post incomplete passes : list axe_item)
    (v : axe_item) :
  (PolicyA.calculate_score (pre ++ v :: post) incomplete passes
   <= PolicyA.calculate_score (pre ++ post) incomplete passes)%Z.
Proof.
  unfold PolicyA.calculate_score, PolicyA.high_pass_rate.
  rewrite !fold_sub_sumZ, !sumZ_app. simpl sumZ.
  rewrite !length_app. simpl List.length.
  pose proof (penalty_range v).
  set (P := Z.of_nat (List.length passes)).
  destruct (Z.eqb_spec (Z.of_nat (List.length pre + S (List.length post)
                                  + List.length incomplete + List.length passes)) 0);
    [lia|].
  destruct (Z.eqb_spec (Z.of_nat (List.length pre + List.length post
                                  + List.length incomplete + List.length passes)) 0);
    [lia|].
  repeat match goal with |- context [Z.ltb ?a ?b] => destruct (Z.ltb_spec a b) end;
    lia.
Qed.

(** X2: with Policy A, one more pass never lowers the score (the pass rate
    can only rise, so the +5 bonus is never lost). *)
Theorem policyA_extra_pass_no_worse (violations incomplete passes : list axe_item)
    (p : axe_item) :
  (PolicyA.calculate_score violations incomplete passes
   <= PolicyA.calculate_score violations incomplete (p :: passes))%Z.
Proof.
  unfold PolicyA.calculate_score, PolicyA.high_pass_rate.
  simpl List.length.
  destruct (Z.eqb_spec (Z.of_nat (List.length violations + List.length incomplete
                                  + S (List.length passes))) 0); [lia|].
  destruct (Z.eqb_spec (Z.of_nat (List.length violations + List.length incomplete
                                  + List.length passes)) 0).
  - assert (violations = []) as -> by (destruct violations; simpl in *; [reflexivity | lia]).
    assert (incomplete = []) as -> by (destruct incomplete; simpl in *; [reflexivity | lia]).
    assert (passes = []) as -> by (destruct passes; simpl in *; [reflexivity | lia]).
    simpl. lia.
  - repeat match goal with |- context [Z.ltb ?a ?b] => destruct (Z.ltb_spec a b) end;
      lia.
Qed.

Section PolicyBGrowth.
Local Open Scope Q_scope.

(** With no violation and no incomplete item the base score is at least 100,
    so the final score is 100. *)
Lemma policyB_clean_base (passes : list axe_item) :
  Z.max 0 (Z.min 100 (PolicyB.py_int (fold_left (fun b i => b - PolicyB.incomplete_deduction i) []
     (fold_left (fun b v => b - PolicyB.deduction v) [] 100)
     + Qmin 20 (inject_Z (Z.of_nat (List.length passes)) * (5 # 10))))) = 100%Z.
Proof.
  simpl fold_left. rewrite clamp_int_floor.
  assert (H : 100 <= 100 + Qmin 20 (inject_Z (Z.of_nat (List.length passes)) * (5 # 10))).
  { rewrite <- (Qplus_0_r 100) at 1. apply Qplus_le_compat; [apply Qle_refl|].
    apply Q.min_glb; [discriminate|].
    apply Qmult_le_0_compat; [|discriminate].
    unfold Qle. simpl. lia. }
  apply Qfloor_resp_le in H. change (Qfloor 100) with 100%Z in H. lia.
Qed.

End PolicyBGrowth.

(** X3: with no violation and no incomplete item, Policies A and B both score
    100, whatever the number of passes. *)
Theorem clean_scan_scores_100 (passes : list axe_item) :
  PolicyA.calculate_score [] [] passes = 100%Z /\
  PolicyB.calculate_score [] [] passes = 100%Z.
Proof.
  split.
  - unfold PolicyA.calculate_score.
    destruct (Z.eqb _ 0); [reflexivity|].
    destruct (PolicyA.high_pass_rate _ _); reflexivity.
  - unfold PolicyB.calculate_score. simpl List.length.
    destruct (Nat.eqb _ 0); [reflexivity|].
    apply policyB_clean_base.
Qed.

(** X4: with Policy B in binary64 arithmetic, inserting one more violation
    or one more incomplete item anywhere never raises the score, and one more
    pass never lowers it.  The platform's [pow] is assumed to give
    [0.9 ** n] and [0.95 ** n] at most 1 for the node count [n] of the
    inserted item. *)
Theorem policyB_growth (fpow : Q -> nat -> Q)
    (pre post violations incomplete passes : list axe_item) (x : axe_item)
    (Hpow : (fpow PolicyB64.c09 (List.length (ax_nodes x)) <= 1)%Q)
    (Hpow' : (fpow PolicyB64.c095 (List.length (ax_nodes x)) <= 1)%Q) :
  (PolicyB64.calculate_score fpow (pre ++ x :: post) incomplete passes
   <= PolicyB64.calculate_score fpow (pre ++ post) incomplete passes)%Z /\
  (PolicyB64.calculate_score fpow violations (pre ++ x :: post) passes
   <= PolicyB64.calculate_score fpow violations (pre ++ post) passes)%Z /\
  (PolicyB64.calculate_score fpow violations incomplete passes
   <= PolicyB64.calculate_score fpow violations incomplete (x :: passes))%Z.
Proof.
  unfold PolicyB64.calculate_score. rewrite !length_app. cbn [List.length].
  split; [|split].
  - destruct (Nat.eqb_spec (List.length pre + S (List.length post)
                            + List.length incomplete + List.length passes) 0); [lia|].
    destruct (Nat.eqb _ 0); [lia|].
    apply clamp_int_mono. apply fadd_mono; [|apply Qle_refl].
    apply fold_fsub_mono. apply fold_fsub_insert; [apply round64_100|].
    apply deduction_nonneg64, Hpow.
  - destruct (Nat.eqb_spec (List.length violations + (List.length pre + S (List.length post))
                            + List.length passes) 0); [lia|].
    destruct (Nat.eqb _ 0); [lia|].
    apply clamp_int_mono. apply fadd_mono; [|apply Qle_refl].
    apply fold_fsub_insert; [apply fold_fsub_double, round64_100|].
    apply incomplete_deduction_nonneg64, Hpow'.
  - destruct (Nat.eqb_spec (List.length violations + List.length incomplete
                            + S (List.length passes)) 0); [lia|].
    destruct (Nat.eqb_spec (List.length violations + List.length incomplete
                            + List.length passes) 0) as [E|].
    + assert (violations = []) as -> by (destruct violations; simpl in *; [reflexivity | lia]).
      assert (incomplete = []) as -> by (destruct incomplete; simpl in *; [reflexivity | lia]).
      cbn [fold_left]. rewrite clamp_int_100; [lia|].
      rewrite <- round64_100 at 1. apply round64_mono.
      assert (0 <= Qmin 20 (Float64.fmul (Float64.of_nat (S (List.length passes)))
                                          PolicyB64.c05))%Q.
      { apply Q.min_glb; [discriminate|]. apply fmul_nonneg; [|apply c05_nonneg].
        apply round64_nonneg. change 0%Q with (inject_Z 0). rewrite <- Zle_Qle. lia. }
      lra.
    + apply clamp_int_mono. apply fadd_mono; [apply Qle_refl|].
      apply Q.min_le_compat_l. apply fmul_mono_l; [apply c05_nonneg|].
      apply round64_mono. rewrite <- Zle_Qle. cbn [List.length]. lia.
Qed.

Lemma policyB_growth_witness :
  (PolicyB64.pow_cr PolicyB64.c09 (List.length (ax_nodes (sample_item (Some "minor") 2))) <= 1)%Q /\
  (PolicyB64.pow_cr PolicyB64.c095 (List.length (ax_nodes (sample_item (Some "minor") 2))) <= 1)%Q /\
  ((PolicyB64.calculate_score PolicyB64.pow_cr ([] ++ sample_item (Some "minor") 2 :: []) [] []
    <= PolicyB64.calculate_score PolicyB64.pow_cr ([] ++ []) [] [])%Z /\
   (PolicyB64.calculate_score PolicyB64.pow_cr [] ([] ++ sample_item (Some "minor") 2 :: []) []
    <= PolicyB64.calculate_score PolicyB64.pow_cr [] ([] ++ []) [])%Z /\
   (PolicyB64.calculate_score PolicyB64.pow_cr [] [] []
    <= PolicyB64.calculate_score PolicyB64.pow_cr [] [] [sample_item (Some "minor") 2])%Z).
Proof.
  assert (H1 : (PolicyB64.pow_cr PolicyB64.c09
                 (List.length (ax_nodes (sample_item (Some "minor") 2))) <= 1)%Q)
    by (apply Qle_bool_imp_le; vm_compute; reflexivity).
  assert (H2 : (PolicyB64.pow_cr PolicyB64.c095
                 (List.length (ax_nodes (sample_item (Some "minor") 2))) <= 1)%Q)
    by (apply Qle_bool_imp_le; vm_compute; reflexivity).
  split; [exact H1|]. split; [exact H2|].
  exact (policyB_growth PolicyB64.pow_cr [] [] [] [] [] (sample_item (Some "minor") 2) H1 H2).
Defined.

Lemma issue_deduction_cases (i : issue) :
  (PolicyC.issue_deduction i = 0%Z /\ is_type i <> Some "critical" /\
   is_type i <> Some "warning") \/
  (PolicyC.issue_deduction i = 15%Z /\ is_type i = Some "critical") \/
  (PolicyC.issue_deduction i = 5%Z /\ is_type i = Some "warning").
Proof.
  unfold PolicyC.issue_deduction.
  destruct (is_type i) as [t|]; [|left; repeat split; discriminate].
  destruct (String.eqb_spec t "critical") as [->|Hc]; [right; left; split; reflexivity|].
  destruct (String.eqb_spec t "warning") as [->|Hw]; [right; right; split; reflexivity|].
  left. repeat split; congruence.
Qed.

(** Case analysis on the innermost integer comparisons of the goal. *)
Ltac split_ltb :=
  repeat match goal with
  | |- context [Z.ltb ?a ?b] =>
      lazymatch a with context [if _ then _ else _] => fail | _ =>
      lazymatch b with context [if _ then _ else _] => fail | _ =>
        destruct (Z.ltb_spec a b) end end
  end.

(** X5: with Policy C, inserting one more finding anywhere never raises the
    document score, and a finding whose type is neither "critical" nor
    "warning" (such as "info", or no type) leaves it unchanged. *)
Theorem policyC_extra_finding (pre post : list issue) (i : issue) (element_count : nat) :
  (PolicyC.calculate_score (pre ++ i :: post) element_count
   <= PolicyC.calculate_score (pre ++ post) element_count)%Z /\
  (is_type i <> Some "critical" -> is_type i <> Some "warning" ->
   PolicyC.calculate_score (pre ++ i :: post) element_count
   = PolicyC.calculate_score (pre ++ post) element_count).
Proof.
  unfold PolicyC.calculate_score. cbv zeta.
  rewrite !fold_sub_sumZ, !sumZ_app. simpl sumZ.
  destruct (issue_deduction_cases i) as [[-> [Hc Hw]] | [[-> Hc] | [-> Hw]]].
  - split; [|intros _ _; rewrite Z.add_0_l; reflexivity].
    destruct (10 <? element_count)%nat;
      split_ltb; lia.
  - split; [|intros H; congruence].
    destruct (10 <? element_count)%nat;
      split_ltb; lia.
  - split; [|intros _ H; congruence].
    destruct (10 <? element_count)%nat;
      split_ltb; lia.
Qed.

Lemma policyC_extra_finding_witness :
  PolicyC.calculate_score [sample_issue "critical"; sample_issue "info"] 4
  = PolicyC.calculate_score [sample_issue "critical"] 4.
Proof.
  apply (proj2 (policyC_extra_finding [sample_issue "critical"] [] (sample_issue "info") 4));
    discriminate.
Defined.

(** ** Document analyses *)


Lemma split_nl_length (s : string) :
  List.length (Py2.split_nl s)
  = S (count_occ ascii_dec (list_ascii_of_string s) "010"%char).
Proof.
  induction s as [|c s IH]; [reflexivity|].
  simpl. destruct (Ascii.eqb_spec c "010"%char) as [->|Hc].
  - simpl. rewrite IH. destruct (ascii_dec "010"%char "010"%char); congruence.
  - destruct (Py2.split_nl s) as [|l ls]; simpl in IH; [discriminate|].
    simpl. destruct (ascii_dec c "010"%char); [congruence|]. exact IH.
Qed.

(** X7: the analysis of a readable text file counts one line more than the
    file has newline characters, counts its characters, and scores between 90
    and 100 (its only findings are warnings, at most two of them). *)
Theorem text_analysis_score (filename content : string) :
  match Docs.analyze_text filename (inr content) with
  | Docs.TextOut b line_count char_count =>
      line_count = S (count_occ ascii_dec (list_ascii_of_string content) "010"%char) /\
      char_count = String.length content /\
      (List.length (sr_issues b) <= 2)%nat /\
      Forall (fun i => is_type i = Some "warning") (sr_issues b) /\
      (90 <= sr_score b <= 100)%Z
  | _ => False
  end.
Proof.
  unfold Docs.analyze_text, Docs.text_issues. cbv zeta.
  split; [apply split_nl_length|]. split; [reflexivity|].
  destruct ((1000 <? String.length content) && Py2.contains _ content);
    destruct (Nat.eqb _ 0);
    cbn [sr_score sr_issues]; unfold PolicyC.calculate_score; simpl;
    destruct (Nat.ltb_spec 10 (List.length (Py2.split_nl content)));
    simpl; (split; [lia|]);
    (split; [repeat constructor|]); lia.
Qed.

Ltac split_ext e :=
  destruct (String.eqb_spec e ".pdf"); destruct (String.eqb_spec e ".doc");
  destruct (String.eqb_spec e ".docx"); destruct (String.eqb_spec e ".txt");
  subst; try congruence.

(** X8: [analyze_document] raises [AttributeError] for every ".doc" or
    ".docx" file name (the class has no [_analyze_word] method), returns a
    result for every other name, and for an extension other than ".pdf" and
    ".txt" returns the score-0 error result "Unsupported file type". *)
Theorem analyze_document_dispatch (filename : string) (view : Docs.doc_view) :
  let ext := Docs.file_ext filename in
  ((ext = ".doc" \/ ext = ".docx") ->
   Docs.analyze_document filename view
   = inl "'PDFAccessibilityChecker' object has no attribute '_analyze_word'") /\
  (ext <> ".doc" -> ext <> ".docx" ->
   exists o, Docs.analyze_document filename view = inr o) /\
  (ext <> ".pdf" -> ext <> ".doc" -> ext <> ".docx" -> ext <> ".txt" ->
   Docs.analyze_document filename view
   = inr (Docs.ErrOut (PDFChecker.error_result filename ("Unsupported file type: " ++ ext)))).
Proof.
  cbv zeta. unfold Docs.analyze_document, Py.mem. simpl existsb.
  set (e := Docs.file_ext filename). clearbody e.
  split_ext e; rewrite ?String.eqb_refl; simpl;
  repeat match goal with
  | H : ?x <> ?y |- context [String.eqb ?x ?y] =>
      rewrite (proj2 (String.eqb_neq x y) H)
  | H : ?y <> ?x |- context [String.eqb ?x ?y] =>
      rewrite (proj2 (String.eqb_neq x y) (not_eq_sym H))
  end; simpl;
  repeat split; intros; try (eexists; reflexivity); try reflexivity;
  intuition congruence.
Qed.

Lemma analyze_document_dispatch_witness :
  Docs.analyze_document "Thesis.DOCX"
    (Docs.mk_doc_view (inl "unused") (inl "unused"))
  = inl "'PDFAccessibilityChecker' object has no attribute '_analyze_word'".
Proof.
  apply (proj1 (analyze_document_dispatch "Thesis.DOCX"
                  (Docs.mk_doc_view (inl "unused") (inl "unused")))).
  right. vm_compute. reflexivity.
Defined.

(** X9: the [/analyze/pdf] endpoint answers 200 with the analysis for ".pdf"
    and ".txt" uploads, 500 with "Failed to analyze document: ..." for every
    ".doc" and ".docx" upload, and 400 for any other extension. *)
Theorem upload_endpoint_status (filename : string) (view : Docs.doc_view) :
  let ext := Docs.file_ext filename in
  Docs.dr_status (Docs.analyze_pdf_endpoint filename view)
  = (if String.eqb ext ".pdf" || String.eqb ext ".txt" then 200
     else if String.eqb ext ".doc" || String.eqb ext ".docx" then 500
     else 400)%Z /\
  ((ext = ".doc" \/ ext = ".docx") ->
   Docs.dr_body (Docs.analyze_pdf_endpoint filename view)
   = Docs.DocErrorBody
       "Failed to analyze document: 'PDFAccessibilityChecker' object has no attribute '_analyze_word'"
       "Document analysis failed").
Proof.
  cbv zeta. unfold Docs.analyze_pdf_endpoint, Docs.analyze_document, Py.mem.
  simpl existsb.
  set (e := Docs.file_ext filename). clearbody e.
  split_ext e; rewrite ?String.eqb_refl; simpl;
  repeat match goal with
  | H : ?x <> ?y |- context [String.eqb ?x ?y] =>
      rewrite (proj2 (String.eqb_neq x y) H)
  end; simpl;
  split; intros; try reflexivity; intuition congruence.
Qed.

Lemma upload_endpoint_status_witness :
  Docs.dr_body (Docs.analyze_pdf_endpoint "notes.docx"
                  (Docs.mk_doc_view (inl "unused") (inr "text")))
  = Docs.DocErrorBody
      "Failed to analyze document: 'PDFAccessibilityChecker' object has no attribute '_analyze_word'"
      "Document analysis failed".
Proof.
  apply (proj2 (upload_endpoint_status "notes.docx"
                  (Docs.mk_doc_view (inl "unused") (inr "text")))).
  right. vm_compute. reflexivity.
Defined.

(** X10: the normalised URL always carries an [http://] or [https://]
    scheme, ends with the URL given, and normalising it again changes
    nothing. *)
Theorem normalize_url_scheme (url : string) :
  let u := Checker2.normalize_url url in
  (Py2.startswith u "http://" || Py2.startswith u "https://") = true /\
  (exists pre, u = pre ++ url) /\
  Checker2.normalize_url u = u.
Proof.
  cbv zeta. unfold Checker2.normalize_url.
  destruct (Py2.startswith url "http://" || Py2.startswith url "https://") eqn:E.
  - rewrite E. split; [reflexivity|]. split; [exists ""; reflexivity | reflexivity].
  - assert (Hs : (Py2.startswith ("https://" ++ url) "http://"
                  || Py2.startswith ("https://" ++ url) "https://") = true)
      by (unfold Py2.startswith; simpl; destruct url; reflexivity).
    rewrite Hs. split; [reflexivity|]. split; [exists "https://"; reflexivity | reflexivity].
Qed.

Section SimpleChecker.

Lemma filter_nil_forallb {A} (f : A -> bool) (l : list A) :
  filter f l = [] <-> forallb (fun a => negb (f a)) l = true.
Proof.
  induction l as [|a l IH]; simpl; [tauto|].
  destruct (f a); simpl; [split; discriminate|exact IH].
Qed.

Lemma simple_issues_length (p : Checker2.simple_page) :
  (List.length (Checker2.simple_issues p) <= 2)%nat.
Proof.
  unfold Checker2.simple_issues. cbv zeta.
  destruct (Nat.eqb _ 0); destruct (match Checker2.sp_html_lang p with
                                    | Some lang => Checker2.falsy lang
                                    | None => true end);
    rewrite ?length_app; simpl; lia.
Qed.

Lemma simple_issues_critical (p : Checker2.simple_page) :
  Forall (fun i => is_type i = Some "critical") (Checker2.simple_issues p).
Proof.
  unfold Checker2.simple_issues. cbv zeta.
  destruct (Nat.eqb _ 0); destruct (match Checker2.sp_html_lang p with
                                    | Some lang => Checker2.falsy lang
                                    | None => true end);
    simpl; repeat constructor.
Qed.

End SimpleChecker.

(** X11: when the page answers 200, the simple checker scores 100, 85 or
    70; it scores 100 exactly when every image has a non-empty [alt] and the
    [<html>] tag has a non-empty [lang]; every finding is critical. *)
Theorem simple_check_score (url : string) (p : Checker2.simple_page)
    (H200 : Checker2.sp_status p = 200%Z) :
  let r := Checker2.check_with_simple url (inr p) in
  (sr_score r = 100 \/ sr_score r = 85 \/ sr_score r = 70)%Z /\
  (sr_score r = 100%Z <->
   forallb (fun a => negb (Checker2.falsy a)) (Checker2.sp_img_alts p) = true /\
   exists l, Checker2.sp_html_lang p = Some (Some l) /\ l <> "") /\
  Forall (fun i => is_type i = Some "critical") (sr_issues r) /\
  sr_method r = "simple".
Proof.
  cbv zeta. unfold Checker2.check_with_simple. rewrite H200. simpl.
  split; [|split; [|split; [apply simple_issues_critical | reflexivity]]].
  - pose proof (simple_issues_length p).
    destruct (List.length (Checker2.simple_issues p)) as [|[|[|k]]]; simpl; lia.
  - rewrite <- filter_nil_forallb.
    unfold Checker2.simple_issues. cbv zeta.
    destruct (filter Checker2.falsy (Checker2.sp_img_alts p)) as [|x F];
      destruct (Checker2.sp_html_lang p) as [[l|]|]; simpl;
      try (destruct (String.eqb_spec l ""); simpl);
      rewrite ?length_app; simpl;
      first
        [ split; intros _;
          [ split; [reflexivity | exists l; split; [reflexivity | assumption]]
          | reflexivity ]
        | split; intros Hx;
          [ lia | destruct Hx as [Hx1 [l' [Hl' Hn]]]; congruence ] ].
Qed.

Lemma simple_check_score_witness :
  sr_score (Checker2.check_with_simple "https://example.org"
              (inr (Checker2.mk_simple_page 200 [Some "logo"; None] (Some (Some "en")))))
  = 85%Z.
Proof.
  destruct (simple_check_score "https://example.org"
              (Checker2.mk_simple_page 200 [Some "logo"; None] (Some (Some "en")))
              eq_refl) as [Hs [Hiff _]].
  destruct Hs as [Hs|[Hs|Hs]]; [|exact Hs|].
  - apply Hiff in Hs. destruct Hs as [Hs _]. discriminate Hs.
  - vm_compute in Hs. discriminate Hs.
Defined.

Section NoBlocked.

Lemma no_b_app (a b : string) : no_b (a ++ b) = no_b a && no_b b.
Proof. induction a as [|c a IH]; simpl; [reflexivity|]. rewrite IH, andb_assoc. reflexivity. Qed.

Lemma no_b_substring (s : string) (n : nat) :
  no_b s = true -> no_b (substring 0 n s) = true.
Proof.
  revert n. induction s as [|c s IH]; intros [|n] H; simpl in *; try reflexivity.
  apply andb_true_iff in H as [H1 H2]. rewrite H1. simpl. apply IH, H2.
Qed.

Lemma no_b_contains (s : string) :
  no_b s = true -> Py2.contains "blocked" (Py.lower s) = false.
Proof.
  induction s as [|c s IH]; intros H; [reflexivity|].
  simpl in H. apply andb_true_iff in H as [H1 H2].
  change (Py.lower (String c s)) with (String (Py.lower_char c) (Py.lower s)).
  set (x := Py.lower_char c) in *. clearbody x.
  cbn [Py2.contains String.prefix]. rewrite (IH H2), orb_false_r.
  destruct (ascii_dec "b" x) as [E|]; [|reflexivity].
  rewrite <- E in H1. discriminate H1.
Qed.

Lemma digit_no_b (d : N) : (d < 10)%N ->
  Ascii.eqb (Py.lower_char (ascii_of_N (48 + d))) "b"%char = false.
Proof.
  intros Hd.
  assert (d = 0 \/ d = 1 \/ d = 2 \/ d = 3 \/ d = 4 \/ d = 5 \/ d = 6 \/ d = 7
          \/ d = 8 \/ d = 9)%N as Hc by lia.
  repeat (destruct Hc as [-> | Hc]; [reflexivity|]). subst. reflexivity.
Qed.

Lemma no_b_digits (fuel : nat) (n : N) (acc : string) :
  no_b acc = true -> no_b (digits_aux fuel n acc) = true.
Proof.
  revert n acc. induction fuel as [|fuel IH]; intros n acc H; simpl; [exact H|].
  assert (Hacc : no_b (String (ascii_of_N (48 + n mod 10)) acc) = true).
  { cbn [no_b]. rewrite digit_no_b by (apply N.mod_lt; discriminate). exact H. }
  destruct (N.eqb (n / 10) 0); [exact Hacc | apply IH, Hacc].
Qed.

Lemma no_b_Z_to_string (z : Z) : no_b (Z_to_string z) = true.
Proof.
  unfold Z_to_string, N_to_string.
  destruct z; [| |rewrite no_b_app]; apply no_b_digits; reflexivity.
Qed.

Lemma policyA_score_ge_60 (violations incomplete passes : list axe_item) :
  (60 <= PolicyA.calculate_score violations incomplete passes)%Z.
Proof.
  unfold PolicyA.calculate_score. destruct (Z.eqb _ 0); lia.
Qed.

End NoBlocked.

(** X12: [/analyze/url] passes a Playwright result through unchanged (its
    score is at least 60); when the simple checker is used and the site
    answers 403 the response is the "blocked" one; for every other HTTP status
    the simple checker's result is passed through unchanged, since neither
    "HTTP <status>" nor a successful simple scan can mention "blocked" with
    score 0. *)
Theorem analyze_url_outcomes (available : bool) (playwright : string + Checker2.axe_run)
    (url : string) :
  (forall fetch run,
     App.analyze_url_response (Checker2.check_url true (inr run) fetch url)
     = App.UrlResults (Checker.process_axe_results (Checker2.normalize_url url)
                         (Checker2.run_violations run) (Checker2.run_incomplete run)
                         (Checker2.run_passes run))) /\
  (forall p, (available = false \/ exists e, playwright = inl e) ->
     Checker2.sp_status p = 403%Z ->
     App.analyze_url_response (Checker2.check_url available playwright (inr p) url)
     = App.UrlBlocked) /\
  (forall p, (available = false \/ exists e, playwright = inl e) ->
     Checker2.sp_status p <> 403%Z ->
     App.analyze_url_response (Checker2.check_url available playwright (inr p) url)
     = App.UrlResults (Checker2.check_with_simple (Checker2.normalize_url url) (inr p))).
Proof.
  assert (Hfb : forall p, (available = false \/ exists e, playwright = inl e) ->
            Checker2.check_url available playwright (inr p) url
            = Checker2.check_with_simple (Checker2.normalize_url url) (inr p)).
  { intros p [Ha | [e Hp]]; unfold Checker2.check_url;
      [rewrite Ha | rewrite Hp; destruct available]; reflexivity. }
  split; [|split].
  - intros fetch run. unfold App.analyze_url_response, Checker2.check_url. simpl.
    pose proof (policyA_score_ge_60 (Checker2.run_violations run)
                  (Checker2.run_incomplete run) (Checker2.run_passes run)) as H60.
    destruct (Z.eqb_spec (PolicyA.calculate_score (Checker2.run_violations run)
                            (Checker2.run_incomplete run) (Checker2.run_passes run)) 0);
      [lia | reflexivity].
  - intros p Hav H403. rewrite (Hfb p Hav).
    unfold Checker2.check_with_simple. rewrite H403. reflexivity.
  - intros p Hav Hn. rewrite (Hfb p Hav).
    unfold App.analyze_url_response.
    set (r := Checker2.check_with_simple (Checker2.normalize_url url) (inr p)).
    assert (Hok : (Z.eqb (sr_score r) 0
                   && Py2.contains "blocked" (Py.lower (sr_summary r))) = false).
    { subst r. unfold Checker2.check_with_simple.
      apply Z.eqb_neq in Hn. rewrite Hn.
      destruct (negb (Z.eqb (Checker2.sp_status p) 200)).
      - unfold Checker.error_result. cbn [sr_summary].
        rewrite no_b_contains, andb_false_r; [reflexivity|].
        rewrite no_b_app. apply andb_true_iff. split; [reflexivity|].
        apply no_b_substring. rewrite no_b_app. apply andb_true_iff.
        split; [reflexivity | apply no_b_Z_to_string].
      - cbn [sr_score].
        pose proof (simple_issues_length p).
        destruct (Z.eqb_spec (Z.max 0 (100 - Z.of_nat (List.length
                                  (Checker2.simple_issues p)) * 15)) 0);
          [lia | reflexivity]. }
    rewrite Hok. reflexivity.
Qed.

Lemma analyze_url_outcomes_witness :
  App.analyze_url_response
    (Checker2.check_url false (inl "unused")
       (inr (Checker2.mk_simple_page 403 [] None)) "example.org")
  = App.UrlBlocked.
Proof.
  apply (proj1 (proj2 (analyze_url_outcomes false (inl "unused") "example.org"))).
  - left. reflexivity.
  - reflexivity.
Defined.

Module ReportShape.
Import Tracker.

Lemma generate_report_json (clock : nat -> Z) (output_dir url department : string)
    (results : scan_result) (k : nat) :
  let r := o_json (fst (generate_report clock output_dir url results department k)) in
  r_wcag_level r = determine_wcag_level (sr_issues results) /\
  r_critical_issues r = List.length (filter is_critical (sr_issues results)) /\
  r_total_issues r = List.length (sr_issues results) /\
  r_detailed_issues r = sr_issues results.
Proof.
  cbv zeta. cbv [generate_report bind now ret get_next_audit_date generate_csv_report].
  destruct (mapM (issue_row clock) (sr_issues results) (S (S (S k)))) as [rows k'] eqn:Er.
  simpl. rewrite Er. simpl. repeat split.
Qed.

Lemma generate_report_csv (clock : nat -> Z) (output_dir url department : string)
    (results : scan_result) (k : nat) :
  let csv := o_csv (fst (generate_report clock output_dir url results department k)) in
  let rows := fst (mapM (issue_row clock) (sr_issues results) (S (S (S k)))) in
  skipn 15 csv = rows /\ List.length csv = (15 + List.length rows)%nat.
Proof.
  cbv zeta. cbv [generate_report bind now ret get_next_audit_date generate_csv_report].
  destruct (mapM (issue_row clock) (sr_issues results) (S (S (S k)))) as [rows k'] eqn:Er.
  simpl. rewrite Er. simpl. split; reflexivity.
Qed.

Lemma issue_row_cells (clock : nat -> Z) (i : issue) (k : nat) :
  exists d, fst (issue_row clock i k)
            = [Py.upper (Py.get (is_type i) ""); Py.get (is_title i) "";
               Py.slice (Py.get (is_description i) "") 100;
               Py.get (is_category i) "General";
               Py.get (is_fix i) "Review required"; d].
Proof.
  unfold issue_row, bind, ret. destruct (due_date clock i k) as [d k1].
  exists d. reflexivity.
Qed.

Lemma issue_rows_cells (clock : nat -> Z) (l : list issue) (k : nat) :
  Forall2 (fun i row => exists d,
             row = [Py.upper (Py.get (is_type i) ""); Py.get (is_title i) "";
                    Py.slice (Py.get (is_description i) "") 100;
                    Py.get (is_category i) "General";
                    Py.get (is_fix i) "Review required"; d])
          l (fst (mapM (issue_row clock) l k)).
Proof.
  revert k. induction l as [|i l IH]; intros k; [constructor|].
  rewrite TrackerFacts.mapM_cons. simpl fst.
  constructor; [apply issue_row_cells | apply IH].
Qed.

End ReportShape.

Section IssueLists.

Lemma firstn_Forall {A} (P : A -> Prop) (n : nat) (l : list A) :
  Forall P l -> Forall P (firstn n l).
Proof.
  revert l. induction n as [|n IH]; intros [|x l] H; simpl; try constructor.
  - inversion H; assumption.
  - apply IH. inversion H; assumption.
Qed.

Lemma filter_none {A} (f : A -> bool) (l : list A) :
  Forall (fun x => f x = false) l -> filter f l = [].
Proof. induction 1 as [|x l Hx _ IH]; simpl; [reflexivity|]. rewrite Hx. exact IH. Qed.

Lemma filter_firstn_app {A} (f : A -> bool) (n : nat) (l1 l2 : list A) :
  Forall (fun x => f x = true) l1 -> Forall (fun x => f x = false) l2 ->
  List.length (filter f (firstn n (l1 ++ l2))) = Nat.min n (List.length l1).
Proof.
  intros H1 H2. revert n. induction H1 as [|x l1 Hx _ IH]; intros n.
  - simpl. rewrite filter_none by (apply firstn_Forall, H2).
    rewrite Nat.min_0_r. reflexivity.
  - destruct n as [|n]; [reflexivity|].
    simpl. rewrite Hx. simpl. rewrite IH. reflexivity.
Qed.

Lemma check_url_tags (available : bool) (playwright : string + Checker2.axe_run)
    (fetch : string + Checker2.simple_page) (url : string) :
  Forall (fun i => is_tags i = None)
         (sr_issues (Checker2.check_url available playwright fetch url)).
Proof.
  assert (Hs : forall u, Forall (fun i => is_tags i = None)
                            (sr_issues (Checker2.check_with_simple u fetch))).
  { intros u. unfold Checker2.check_with_simple.
    destruct fetch as [e|p]; [repeat constructor|].
    destruct (Z.eqb _ 403); [repeat constructor|].
    destruct (negb _); [repeat constructor|].
    simpl sr_issues. unfold Checker2.simple_issues. cbv zeta.
    destruct (Nat.eqb _ 0); destruct (match Checker2.sp_html_lang p with
                                      | Some lang => Checker2.falsy lang
                                      | None => true end);
      simpl; repeat constructor. }
  unfold Checker2.check_url.
  destruct available; [destruct playwright as [e|run]|]; try apply Hs.
  cbn [sr_issues Checker.process_axe_results]. apply firstn_Forall, Forall_app. split.
  - apply Forall_forall. intros x Hx. apply in_map_iff in Hx as [v [<- _]]. reflexivity.
  - apply Forall_forall. intros x Hx. apply in_map_iff in Hx as [v [<- _]]. reflexivity.
Qed.

Lemma wcag_level_untagged (issues : list issue) :
  Forall (fun i => is_tags i = None) issues ->
  Tracker.determine_wcag_level issues = "WCAG 2.1 AA (Target)".
Proof.
  induction 1 as [|i l Hi _ IH]; simpl; [reflexivity|].
  rewrite Hi. exact IH.
Qed.

End IssueLists.

(** X13: the "WCAG 2.0 A (Minimum)" level is never reported for a web scan:
    no finding produced by [check_url] carries tags, so a report generated
    from any of its results states "WCAG 2.1 AA (Target)". *)
Theorem web_report_wcag_level (clock : nat -> Z) (output_dir department : string)
    (available : bool) (playwright : string + Checker2.axe_run)
    (fetch : string + Checker2.simple_page) (url : string) (k : nat) :
  Tracker.r_wcag_level
    (Tracker.o_json (fst (Tracker.generate_report clock output_dir url
       (Checker2.check_url available playwright fetch url) department k)))
  = "WCAG 2.1 AA (Target)".
Proof.
  destruct (ReportShape.generate_report_json clock output_dir url department
              (Checker2.check_url available playwright fetch url) k)
    as [-> _].
  apply wcag_level_untagged, check_url_tags.
Qed.

(** X14: a report made from an axe-core scan counts min(20, violations)
    critical issues and min(20, violations + incomplete) issues in total:
    the 20-finding cap of [_process_axe_results] drops incomplete items
    first, and every violation is critical while every incomplete item is a
    warning. *)
Theorem axe_report_counts (clock : nat -> Z) (output_dir url department target : string)
    (violations incomplete passes : list axe_item) (k : nat) :
  let r := Tracker.o_json (fst (Tracker.generate_report clock output_dir url
             (Checker.process_axe_results target violations incomplete passes)
             department k)) in
  Tracker.r_critical_issues r = Nat.min 20 (List.length violations) /\
  Tracker.r_total_issues r
    = Nat.min 20 (List.length violations + List.length incomplete).
Proof.
  cbv zeta.
  destruct (ReportShape.generate_report_json clock output_dir url department
              (Checker.process_axe_results target violations incomplete passes)
              k) as [_ [-> [-> _]]].
  cbn [sr_issues Checker.process_axe_results]. split.
  - rewrite <- (length_map Checker.violation_issue violations).
    apply filter_firstn_app.
    + apply Forall_forall. intros x Hx. apply in_map_iff in Hx as [v [<- _]]. reflexivity.
    + apply Forall_forall. intros x Hx. apply in_map_iff in Hx as [v [<- _]]. reflexivity.
  - rewrite length_firstn, length_app, !length_map. reflexivity.
Qed.

(** X15: the CSV of a report has the 15 header and summary rows followed by
    exactly one row per finding; each finding's row has six cells, starts
    with its upper-cased type and holds at most 100 characters of its
    description. *)
Theorem csv_report_shape (clock : nat -> Z) (output_dir url department : string)
    (results : scan_result) (k : nat) :
  let out := fst (Tracker.generate_report clock output_dir url results department k) in
  List.length (Tracker.o_csv out) = (15 + List.length (sr_issues results))%nat /\
  Forall2 (fun i row =>
             List.length row = 6%nat /\
             nth 0 row "" = Py.upper (Py.get (is_type i) "") /\
             (String.length (nth 2 row "") <= 100)%nat)
          (sr_issues results) (skipn 15 (Tracker.o_csv out)).
Proof.
  cbv zeta.
  destruct (ReportShape.generate_report_csv clock output_dir url department results k)
    as [Hskip Hlen].
  pose proof (ReportShape.issue_rows_cells clock (sr_issues results) (S (S (S k)))) as Hr.
  rewrite Hlen, Hskip, <- (Forall2_length Hr). split; [reflexivity|].
  eapply Forall2_impl; [|exact Hr].
  intros i row [d ->]. simpl. split; [reflexivity | split; [reflexivity|]].
  apply substring_0_length.
Qed.

Section PolicyBCosts.
Local Open Scope Q_scope.




End PolicyBCosts.



(** X18: a higher score never gets a worse letter from [get_grade], and the
    letters A+ and A are given exactly to the scores the compliance tracker
    calls "COMPLIANT" (90 and above). *)
Theorem grade_monotone_and_compliance (s1 s2 : Z) :
  ((s1 <= s2)%Z ->
   (grade_rank (fst (Grade.get_grade s1)) <= grade_rank (fst (Grade.get_grade s2)))%nat) /\
  ((fst (Grade.get_grade s1) = "A+" \/ fst (Grade.get_grade s1) = "A") <->
   Py2.startswith (Tracker.get_compliance_status s1) "COMPLIANT" = true).
Proof.
  split.
  - intros H. unfold Grade.get_grade.
    repeat match goal with |- context [Z.leb ?a ?b] => destruct (Z.leb_spec a b) end;
      vm_compute; lia.
  - unfold Grade.get_grade, Tracker.get_compliance_status.
    repeat match goal with |- context [Z.leb ?a ?b] => destruct (Z.leb_spec a b) end;
      try lia; vm_compute; intuition discriminate.
Qed.

Lemma grade_monotone_and_compliance_witness :
  (grade_rank (fst (Grade.get_grade 72)) <= grade_rank (fst (Grade.get_grade 88)))%nat.
Proof. apply (proj1 (grade_monotone_and_compliance 72 88)). lia. Defined.
